(** * Game page, game rules and chat service of the forum application

    A shallow embedding of
    - [client/src/hooks/useGamePage.ts] (the game page hook),
    - [client/src/components/main/games/gamePage/index.tsx],
    - the hook of the "All Games" page ([handleCreateGame]),
    - [server/services/chat.service.ts],
    - [server/controllers/chat.controller.ts],
    - the direct message hook and [client/src/hooks/useProfileSettings.ts],
    together with the data model of a game session, the Nim rules and the
    creation of a session that the design document describes. *)

From Stdlib Require Import ZArith Lia Ascii String.
From stdpp Require Import base strings list gmap infinite.

Local Open Scope string_scope.

(** ** Data model *)

(** Modelled from the spec: the [types] module of the client
    ([GameInstance], [GameUpdatePayload], [GameErrorPayload]) is imported by
    the hooks but is not part of the sources; the records below follow the
    data model of the design document. The fields the code reads
    ([state.status], [gameType], [players], [gameState], [player], [error])
    keep the names the code uses. *)
Inductive GameStatus := WAITING | IN_PROGRESS | OVER.

#[global] Instance GameStatus_eq_dec : EqDecision GameStatus.
Proof. solve_decision. Defined.

Record NimState := mkNimState {
  status : GameStatus;
  remaining : Z;
  turn : option string;
  winner : option string
}.

Record GameInstance := mkGameInstance {
  gameID : string;
  gameType : string;
  players : list string;
  state : NimState
}.

(** The payloads of the [gameUpdate] and [gameError] socket events. *)
Module Payload.

Record GameUpdatePayload := mkGameUpdate { gameState : GameInstance }.

Record GameErrorPayload := mkGameError { player : string; error : string }.

End Payload.

Abbreviation GameUpdatePayload := Payload.GameUpdatePayload.
Abbreviation GameErrorPayload := Payload.GameErrorPayload.

(** A promise of the services layer either resolves with a value or rejects
    (an [await] on it then throws). *)
Inductive Outcome (A : Type) :=
| Resolved (a : A)
| Rejected (err : string).
Arguments Resolved {A} a.
Arguments Rejected {A} err.

(** ** The game page hook *)
Module GamePageHook.

(** The three [useState] cells of [useGamePage]. *)
Record HookState := mkHook {
  gameState : option GameInstance;
  joinedGameID : option string;
  error : option string
}.

Definition initial : HookState := mkHook None None None.

(** What a handler does, in program order: requests to the games service,
    state setters, socket signals, navigation and console output. *)
Inductive Action :=
| CallCreateGame (gameType : string)
| CallJoinGame (id username : string)
| CallLeaveGame (id username : string)
| SetGameState (g : GameInstance)
| SetJoinedGameID (id : string)
| SetError (msg : string)
| Emit (event arg : string)
| Navigate (path : string)
| ConsoleError (label : string).

Definition applyAction (st : HookState) (a : Action) : HookState :=
  match a with
  | SetGameState g => mkHook (Some g) (joinedGameID st) (error st)
  | SetJoinedGameID id => mkHook (gameState st) (Some id) (error st)
  | SetError msg => mkHook (gameState st) (joinedGameID st) (Some msg)
  | _ => st
  end.

Definition run (st : HookState) (acts : list Action) : HookState :=
  foldl applyAction st acts.

(** JavaScript truthiness of a [string | null]. *)
Definition truthy (s : option string) : bool :=
  match s with
  | None => false
  | Some id => negb (bool_decide (id = ""))
  end.

(** [gameState?.state.status !== 'OVER']. *)
Definition statusNotOver (g : option GameInstance) : bool :=
  match g with
  | None => true
  | Some gi => negb (bool_decide (status (state gi) = OVER))
  end.

(** [handleLeaveGame]; [leaveRes] is the outcome of the awaited
    [leaveGame] request and [socket] tells whether the socket is there
    ([socket?.emit]). *)
Definition handleLeaveGame (st : HookState) (username : string)
    (socket : bool) (leaveRes : Outcome unit) : list Action :=
  (if truthy (joinedGameID st) && statusNotOver (gameState st) then
     match joinedGameID st with
     | Some id =>
         CallLeaveGame id username ::
         match leaveRes with
         | Resolved _ => if socket then [Emit "leaveGame" id] else []
         | Rejected _ => [ConsoleError "Failed to leave game:"]
         end
     | None => []
     end
   else []) ++ [Navigate "/games"].

(** The [catch] block of [handleJoinGame], entered with the thrown [err]. *)
Definition joinFailed (err : string) : list Action :=
  [SetError "Failed to join game. Please try again.";
   ConsoleError err;
   Navigate "/games"].

(** [handleJoinGame]; [joinRes] is the outcome of the awaited [joinGame]
    request. [socket.emit] on a missing socket throws a [TypeError] inside
    the [try]. *)
Definition handleJoinGame (id username : string) (socket : bool)
    (joinRes : Outcome GameInstance) : list Action :=
  CallJoinGame id username ::
  match joinRes with
  | Resolved game =>
      SetGameState game :: SetJoinedGameID id ::
      (if socket then [Emit "joinGame" id] else joinFailed "TypeError")
  | Rejected err => joinFailed err
  end.

(** The body of the effect up to the registration of the listeners:
    [if (gameID) handleJoinGame(gameID)]. *)
Definition mountEffect (gameID : option string) (username : string)
    (socket : bool) (joinRes : Outcome GameInstance) : list Action :=
  match gameID with
  | Some id => if truthy gameID then handleJoinGame id username socket joinRes else []
  | None => []
  end.

Definition handleGameUpdate (update : GameUpdatePayload) : list Action :=
  [SetGameState (Payload.gameState update)].

Definition handleGameError (username : string) (gameError : GameErrorPayload)
    : list Action :=
  if bool_decide (Payload.player gameError = username)
  then [SetError (Payload.error gameError)]
  else [].

(** States the hook can be in: the initial one, and what the join handler
    and the two socket listeners make of a state. *)
Inductive reachable : HookState -> Prop :=
| reach_init : reachable initial
| reach_mount st gameID username socket joinRes :
    reachable st ->
    reachable (run st (mountEffect gameID username socket joinRes))
| reach_update st update :
    reachable st -> reachable (run st (handleGameUpdate update))
| reach_error st username gameError :
    reachable st -> reachable (run st (handleGameError username gameError)).

(** The two parts of a leave request: the [leaveGame] call to the games
    service and the [leaveGame] socket signal. *)
Definition isLeaveRequest (a : Action) : bool :=
  match a with
  | CallLeaveGame _ _ => true
  | Emit event _ => bool_decide (event = "leaveGame")
  | _ => false
  end.

Definition isNavigate (a : Action) : bool :=
  match a with Navigate _ => true | _ => false end.

Definition isJoinCall (a : Action) : bool :=
  match a with CallJoinGame _ _ => true | _ => false end.

(** The order the design document gives for a join: the connection is
    subscribed (the [joinGame] signal) before [joinGame] is invoked. *)
Definition subscribesBeforeJoin (acts : list Action) (id username : string)
    : Prop :=
  exists i j : nat,
    acts !! i = Some (Emit "joinGame" id) /\
    acts !! j = Some (CallJoinGame id username) /\
    i < j.

(** A sample session and the hook state of a client that has joined it. *)
Definition sampleGame (s : GameStatus) : GameInstance :=
  mkGameInstance "g1" "Nim" ["alice"; "bob"] (mkNimState s 21 (Some "alice") None).

Definition joinedState (s : GameStatus) : HookState :=
  run initial (mountEffect (Some "g1") "alice" true (Resolved (sampleGame s))).

End GamePageHook.

(** ** The "All Games" page hook *)
Module AllGamesPage.
Import GamePageHook.

(** [handleCreateGame]; [createRes] is the outcome of the awaited
    [createGame(gameType)] request, which resolves with the new id. *)
Definition handleCreateGame (gameType : string) (createRes : Outcome string)
    : list Action :=
  CallCreateGame gameType ::
  match createRes with
  | Resolved newGameID => [Navigate ("/games/" ++ newGameID)]
  | Rejected _ => [ConsoleError "Error creating game:"]
  end.

(** [handleJoin]: opening an existing game is a navigation only. *)
Definition handleJoin (gameID : string) : list Action :=
  [Navigate ("/games/" ++ gameID)].

End AllGamesPage.

(** ** The game page component *)
Module GamePage.

(** What the component tree shows below the controls. *)
Inductive Element :=
| LoadingGame
| LoadingGameData
| NimGamePage (gameState : GameInstance)
| UnsupportedGameType (gameType : string).

Section Render.

(** [String.prototype.toUpperCase] of the JavaScript runtime. *)
Variable toUpperCase : string -> string.

(** [renderGameComponent], a closure over the hook's [gameState]. *)
Definition renderGameComponent (gameState : option GameInstance)
    (gameType : string) : Element :=
  match gameState with
  | None => LoadingGame
  | Some g =>
      if bool_decide (toUpperCase gameType = "NIM")
      then NimGamePage g
      else UnsupportedGameType gameType
  end.

(** The last child of the page:
    [gameState ? renderGameComponent(gameState.gameType) : ...]. *)
Definition gamePageBody (gameState : option GameInstance) : Element :=
  match gameState with
  | Some g => renderGameComponent gameState (gameType g)
  | None => LoadingGameData
  end.

End Render.

(** Upper-casing restricted to the ASCII letters, which is what
    [toUpperCase] does on strings of ASCII characters. *)
Definition upperAscii (c : ascii) : ascii :=
  let n := nat_of_ascii c in
  if Nat.leb 97 n && Nat.leb n 122 then ascii_of_nat (n - 32) else c.

Fixpoint asciiToUpperCase (s : string) : string :=
  match s with
  | EmptyString => EmptyString
  | String c rest => String (upperAscii c) (asciiToUpperCase rest)
  end.

End GamePage.

(** ** The Nim rules and the session store *)
Module NimRules.

Inductive MoveError := NotYourTurn | InvalidQuantity | GameOver.

Fixpoint indexOf (p : string) (l : list string) : option nat :=
  match l with
  | [] => None
  | q :: rest => if bool_decide (q = p) then Some 0%nat else S <$> indexOf p rest
  end.

(** The next player in [players] order, wrapping. *)
Definition nextPlayer (players : list string) (p : string) : option string :=
  match indexOf p players with
  | Some i => players !! ((i + 1) mod length players)%nat
  | None => None
  end.

Definition legalQuantity (remaining move : Z) : bool :=
  (1 <=? move)%Z && (move <=? Z.min 3 remaining)%Z.

(** Modelled from the spec: the rules engine ([applyMove]) is not part of
    the sources. The three rejections are tested in the order the design
    document lists them; on a legal move the pile shrinks, and either the
    game is over (the winner is the mover or the next player, by the
    [lastTakerWins] parameter) or the turn passes to the next player. *)
Definition applyMove (lastTakerWins : bool) (players : list string)
    (st : NimState) (playerId : string) (move : Z) : MoveError + NimState :=
  if negb (bool_decide (turn st = Some playerId)) then inl NotYourTurn
  else if negb (legalQuantity (remaining st) move) then inl InvalidQuantity
  else if negb (bool_decide (status st = IN_PROGRESS)) then inl GameOver
  else
    let left := (remaining st - move)%Z in
    if (left =? 0)%Z then
      inr (mkNimState OVER left (turn st)
             (if lastTakerWins then Some playerId
              else nextPlayer players playerId))
    else
      inr (mkNimState IN_PROGRESS left (nextPlayer players playerId) (winner st)).

Definition applyMoveTo (lastTakerWins : bool) (g : GameInstance)
    (playerId : string) (move : Z) : MoveError + GameInstance :=
  match applyMove lastTakerWins (players g) (state g) playerId move with
  | inl e => inl e
  | inr st' => inr (mkGameInstance (gameID g) (gameType g) (players g) st')
  end.

Inductive MutateResult (E : Type) :=
| NotFound
| Failed (e : E)
| Committed (g : GameInstance).
Arguments NotFound {E}.
Arguments Failed {E} e.
Arguments Committed {E} g.

(** Modelled from the spec: the session store is not part of the sources.
    [mutate] looks the session up, applies [fn] and commits the new
    instance when [fn] succeeds; a failure leaves the store as it is. *)
Definition mutate {E : Type} (store : gmap string GameInstance)
    (sessionId : string) (fn : GameInstance -> E + GameInstance)
    : gmap string GameInstance * MutateResult E :=
  match store !! sessionId with
  | None => (store, NotFound)
  | Some g =>
      match fn g with
      | inl e => (store, Failed e)
      | inr g' => (<[sessionId := g']> store, Committed g')
      end
  end.

(** Modelled from the spec: [submitMove] of the lifecycle manager, which
    delegates to [mutate] with [applyMove]. *)
Definition submitMove (lastTakerWins : bool) (store : gmap string GameInstance)
    (sessionId playerId : string) (move : Z)
    : gmap string GameInstance * MutateResult MoveError :=
  mutate store sessionId (fun g => applyMoveTo lastTakerWins g playerId move).

(** A store holding the sample session, in progress. *)
Definition sampleStore : gmap string GameInstance :=
  {[ "g1" := GamePageHook.sampleGame IN_PROGRESS ]}.

End NimRules.

(** ** The session lifecycle manager *)
Module SessionLifecycle.
Import NimRules.

Inductive LifecycleError :=
| SessionNotFound
| InvalidGameType
| SessionFull
| AlreadyInGame
| PlayerNotInSession.

(** The game types with a ruleset; the design document names [NIM]. *)
Definition supportedGameType (gameType : string) : bool :=
  bool_decide (gameType = "NIM").

(** The minimum player count of Nim. *)
Definition minPlayers : nat := 2.

Section Lifecycle.

(** The pile size of a new Nim game, fixed per game. *)
Variable pileSize : Z.

(** A session as the store creates it: nobody has joined, the game
    waits, the pile is full. *)
Definition newSession (id gameType : string) : GameInstance :=
  mkGameInstance id gameType [] (mkNimState WAITING pileSize None None).

(** Modelled from the spec: [create] of the session store, which is not
    part of the sources. The new session gets an id no session has. *)
Definition create (store : gmap string GameInstance) (gameType : string)
    : gmap string GameInstance * string :=
  let id := fresh (dom store) in
  (<[id := newSession id gameType]> store, id).

(** Modelled from the spec: a player takes a seat. Players are kept in
    join order; when the minimum player count is reached a waiting game
    goes in progress and the turn is the first joiner's. *)
Definition seat (g : GameInstance) (playerId : string) : GameInstance :=
  let seated := (players g ++ [playerId])%list in
  if bool_decide (status (state g) = WAITING)
     && Nat.leb minPlayers (length seated)
  then mkGameInstance (gameID g) (gameType g) seated
         (mkNimState IN_PROGRESS (remaining (state g)) (head seated)
                     (winner (state g)))
  else mkGameInstance (gameID g) (gameType g) seated (state g).

(** Modelled from the spec: [createGame] of the lifecycle manager, which
    is not part of the sources. It creates a session through the store,
    seats the requesting player in it through [mutate], and returns the
    session id; an unsupported game type fails with [InvalidGameType]. *)
Definition createGame (store : gmap string GameInstance)
    (gameType requestingPlayer : string)
    : gmap string GameInstance * (LifecycleError + string) :=
  if supportedGameType gameType then
    let '(created, sessionId) := create store gameType in
    (fst (mutate (E := LifecycleError) created sessionId
            (fun g => inr (seat g requestingPlayer))),
     inr sessionId)
  else (store, inl InvalidGameType).

End Lifecycle.

End SessionLifecycle.

(** ** The chat service *)
Module ChatService.

Record Message := mkMessage {
  msg : string;
  msgFrom : string;
  msgDateTime : string;
  msgType : option string
}.

Record MessageDoc := mkMessageDoc { message_id : string; message_body : Message }.

(** An entry of a chat's [messages]: the id of a message, or the message
    itself once [populate('messages')] has run. *)
Inductive MessageEntry :=
| MessageRef (id : string)
| Populated (m : MessageDoc).

Record Chat := mkChat {
  chat_id : string;
  participants : list string;
  messages : list MessageEntry
}.

Record CreateChatPayload := mkPayload {
  payload_participants : list string;
  payload_messages : list Message
}.

Record ErrorObject := mkError { error : string }.

Definition ChatResponse : Type := Chat + ErrorObject.
Definition MessageResponse : Type := MessageDoc + ErrorObject.

(** The update documents the service passes to [findByIdAndUpdate]. *)
Inductive Update :=
| Push_messages (messageId : string)
| AddToSet_participants (userId : string).

(** [{ ...message, type: 'direct' }]. *)
Definition withType (m : Message) (t : string) : Message :=
  mkMessage (msg m) (msgFrom m) (msgDateTime m) (Some t).

Section Service.

(** The state of the database behind the Mongoose models. *)
Variable Db : Type.

(** An asynchronous computation against the database: it resolves or
    rejects, and leaves a database state behind either way. *)
Definition M (A : Type) : Type := Db -> Outcome A * Db.

Definition ret {A : Type} (a : A) : M A := fun db => (Resolved a, db).

Definition bind {A B : Type} (m : M A) (k : A -> M B) : M B :=
  fun db =>
    match m db with
    | (Resolved a, db') => k a db'
    | (Rejected err, db') => (Rejected err, db')
    end.

(** [try { m } catch (err) { handler }]. *)
Definition tryCatch {A : Type} (m : M A) (handler : string -> M A) : M A :=
  fun db =>
    match m db with
    | (Resolved a, db') => (Resolved a, db')
    | (Rejected err, db') => handler err db'
    end.

Local Notation "'await!' x := m 'in' k" := (bind m (fun x => k))
  (at level 10, x name, m at level 100, k at level 200).

(** The operations of the Mongoose models that the service calls. Each may
    resolve or reject. *)
Variable MessageModel_create : Message -> M MessageDoc.
Variable ChatModel_save : list string -> list string -> M Chat.
Variable ChatModel_findByIdAndUpdate : string -> Update -> M (option Chat).
Variable ChatModel_findById_populate : string -> M (option Chat).
Variable ChatModel_find_all_populate : list string -> M (list Chat).

(** The loop of [saveChat]: the messages are created in order and their
    ids collected. *)
Fixpoint createMessages (messages : list Message) : M (list string) :=
  match messages with
  | [] => ret []
  | message :: rest =>
      await! created := MessageModel_create (withType message "direct") in
      await! messageIds := createMessages rest in
      ret (message_id created :: messageIds)
  end.

(** The [catch] blocks log to the console and return; the log is not part
    of the model. *)
Definition saveChat (chatPayload : CreateChatPayload) : M ChatResponse :=
  tryCatch
    (await! messageIds := createMessages (payload_messages chatPayload) in
     await! savedChat := ChatModel_save (payload_participants chatPayload) messageIds in
     ret (inl savedChat))
    (fun _ => ret (inr (mkError "Failed to create chat"))).

Definition createMessage (messageData : Message) : M MessageResponse :=
  tryCatch
    (await! newMsg := MessageModel_create (withType messageData "direct") in
     ret (inl newMsg))
    (fun _ => ret (inr (mkError "Failed to create message"))).

Definition addMessageToChat (chatId messageId : string) : M ChatResponse :=
  tryCatch
    (await! updatedChat := ChatModel_findByIdAndUpdate chatId (Push_messages messageId) in
     match updatedChat with
     | None => ret (inr (mkError "Chat not found"))
     | Some c => ret (inl c)
     end)
    (fun _ => ret (inr (mkError "Failed to add message to chat"))).

Definition getChat (chatId : string) : M ChatResponse :=
  tryCatch
    (await! chat := ChatModel_findById_populate chatId in
     match chat with
     | None => ret (inr (mkError "Chat not found"))
     | Some c => ret (inl c)
     end)
    (fun _ => ret (inr (mkError "Failed to retrieve chat"))).

Definition getChatsByParticipants (p : list string) : M (list Chat) :=
  tryCatch
    (await! chats := ChatModel_find_all_populate p in ret chats)
    (fun _ => ret []).

Definition addParticipantToChat (chatId userId : string) : M ChatResponse :=
  tryCatch
    (await! updatedChat := ChatModel_findByIdAndUpdate chatId (AddToSet_participants userId) in
     match updatedChat with
     | None => ret (inr (mkError "Chat not found"))
     | Some c => ret (inl c)
     end)
    (fun _ => ret (inr (mkError "Failed to add participant"))).

(** The computation returns to its caller: it does not reject. *)
Definition resolves {A : Type} (m : M A) : Prop :=
  forall db, exists a db', m db = (Resolved a, db').

End Service.

Arguments ret {Db A} a.
Arguments bind {Db A B} m k.
Arguments tryCatch {Db A} m handler.
Arguments resolves {Db A} m.

(** *** The chats collection in memory

    MongoDB and Mongoose are outside the repository. The collection is a
    finite map from chat ids to chat documents; [connected] is false when
    the database cannot be reached, and every operation then rejects. *)
Record MemDb := mkMemDb {
  chats : gmap string Chat;
  connected : bool
}.

(** [$addToSet]: the value is appended unless the array already has it. *)
Definition addToSet (x : string) (l : list string) : list string :=
  if bool_decide (x ∈ l) then l else l ++ [x].

(** [$push] appends. *)
Definition applyUpdate (u : Update) (c : Chat) : Chat :=
  match u with
  | Push_messages messageId =>
      mkChat (chat_id c) (participants c) (messages c ++ [MessageRef messageId])
  | AddToSet_participants userId =>
      mkChat (chat_id c) (addToSet userId (participants c)) (messages c)
  end.

(** [findByIdAndUpdate(id, update, { new: true })]: resolves with [null]
    when no chat has the id, and with the updated document otherwise. *)
Definition memFindByIdAndUpdate (chatId : string) (u : Update)
    : M MemDb (option Chat) :=
  fun db =>
    if connected db then
      match chats db !! chatId with
      | None => (Resolved None, db)
      | Some c =>
          (Resolved (Some (applyUpdate u c)),
           mkMemDb (<[chatId := applyUpdate u c]> (chats db)) (connected db))
      end
    else (Rejected "database error", db).

(** The participants of a chat as stored. *)
Definition participantsOf (db : MemDb) (chatId : string) : option (list string) :=
  participants <$> chats db !! chatId.

(** A model operation on a database that cannot be reached. *)
Definition unreachable {A : Type} : M MemDb A :=
  fun db => (Rejected "database error", db).

Definition sampleChat : Chat := mkChat "c1" ["alice"; "bob"] [].

Definition sampleDb : MemDb := mkMemDb {[ "c1" := sampleChat ]} true.

End ChatService.

(** ** Counting the join requests of an action list *)
Module GamePageEvents.
Import GamePageHook.

Definition joinCalls (acts : list Action) : list Action :=
  filter (fun a => isJoinCall a = true) acts.

End GamePageEvents.

(** ** State of the "All Games" page *)
Module AllGamesPageState.
Import GamePageHook AllGamesPage.

(** The two [useState] cells of [useAllGamesPage]. *)
Record PageState := mkPage {
  availableGames : list GameInstance;
  isModalOpen : bool
}.

Inductive PageAction :=
| CallGetGames
| SetAvailableGames (games : list GameInstance)
| ToggleModal
| CloseModal
| Hook (a : Action).

Definition applyPageAction (st : PageState) (a : PageAction) : PageState :=
  match a with
  | SetAvailableGames games => mkPage games (isModalOpen st)
  | ToggleModal => mkPage (availableGames st) (negb (isModalOpen st))
  | CloseModal => mkPage (availableGames st) false
  | _ => st
  end.

Definition runPage (st : PageState) (acts : list PageAction) : PageState :=
  foldl applyPageAction st acts.

(** [fetchGames]; [res] is the outcome of [getGames(undefined, undefined)]. *)
Definition fetchGames (res : Outcome (list GameInstance)) : list PageAction :=
  CallGetGames ::
  match res with
  | Resolved games => [SetAvailableGames games]
  | Rejected _ => [Hook (ConsoleError "Failed to fetch games:")]
  end.

Definition handleToggleModal : list PageAction := [ToggleModal].

(** [handleSelectGameType]: [handleCreateGame] runs up to its [await], the
    modal is closed, and the rest of [handleCreateGame] runs when the
    request has settled. *)
Definition handleSelectGameType (gameType : string) (createRes : Outcome string)
    : list PageAction :=
  match handleCreateGame gameType createRes with
  | request :: rest => Hook request :: CloseModal :: map Hook rest
  | [] => [CloseModal]
  end.

Definition isHookNavigate (a : PageAction) : bool :=
  match a with Hook (Navigate _) => true | _ => false end.

End AllGamesPageState.

(** ** Sequences of updates and a store with messages *)
Module ChatStore.
Import ChatService.

(** The database after [addParticipantToChat] for each of [userIds], in
    order. *)
Definition addParticipants (chatId : string) (userIds : list string)
    (db : MemDb) : MemDb :=
  foldl (fun d userId =>
           snd (addParticipantToChat MemDb memFindByIdAndUpdate chatId userId d))
        db userIds.

(** The database after [addMessageToChat] for each of [messageIds], in
    order. *)
Definition addMessages (chatId : string) (messageIds : list string)
    (db : MemDb) : MemDb :=
  foldl (fun d messageId =>
           snd (addMessageToChat MemDb memFindByIdAndUpdate chatId messageId d))
        db messageIds.

(** The messages and chats collections. Documents get the ids the driver
    hands out, numbered by [nextId]. *)
Record Mongo := mkMongo {
  messageDocs : list MessageDoc;
  chatDocs : gmap string Chat;
  nextId : nat
}.

Section Store.

(** The ids of the driver, and the validation of the two schemas; the
    models ([messages.model], [chat.model]) are not part of the sources. *)
Variable objectId : nat -> string.
Variable validMessage : Message -> bool.
Variable validChat : list string -> list string -> bool.

(** The cast of a chat id to an [ObjectId] that Mongoose performs before
    a query by id: it tells whether the string has the format of an id. *)
Variable validId : string -> bool.

(** [MessageModel.create(m)]. *)
Definition mongoCreateMessage (m : Message) : M Mongo MessageDoc :=
  fun db =>
    if validMessage m then
      let doc := mkMessageDoc (objectId (nextId db)) m in
      (Resolved doc,
       mkMongo (messageDocs db ++ [doc]) (chatDocs db) (S (nextId db)))
    else (Rejected "ValidationError", db).

(** [new ChatModel({ participants, messages }).save()]. *)
Definition mongoSaveChat (participants messageIds : list string) : M Mongo Chat :=
  fun db =>
    if validChat participants messageIds then
      let c := mkChat (objectId (nextId db)) participants
                      (MessageRef <$> messageIds) in
      (Resolved c,
       mkMongo (messageDocs db) (<[chat_id c := c]> (chatDocs db))
               (S (nextId db)))
    else (Rejected "ValidationError", db).

(** [ChatModel.findByIdAndUpdate(id, update, { new: true })] on that
    store: an id of the wrong format makes the query reject with a cast
    error; otherwise it resolves with [null] when no chat has the id and
    with the updated chat when one has. *)
Definition mongoFindByIdAndUpdate (chatId : string) (u : Update)
    : M Mongo (option Chat) :=
  fun db =>
    if validId chatId then
      match chatDocs db !! chatId with
      | None => (Resolved None, db)
      | Some c =>
          (Resolved (Some (applyUpdate u c)),
           mkMongo (messageDocs db) (<[chatId := applyUpdate u c]> (chatDocs db))
                   (nextId db))
      end
    else (Rejected "CastError", db).

(** The same cast in front of the update of the in-memory collection. *)
Definition castFindByIdAndUpdate (chatId : string) (u : Update)
    : M MemDb (option Chat) :=
  fun db =>
    if validId chatId then memFindByIdAndUpdate chatId u db
    else (Rejected "CastError", db).

End Store.

(** The format of an [ObjectId] written as a string: 24 hexadecimal
    digits. *)
Definition isHexDigit (c : ascii) : bool :=
  let n := nat_of_ascii c in
  (Nat.leb 48 n && Nat.leb n 57) || (Nat.leb 97 n && Nat.leb n 102)
  || (Nat.leb 65 n && Nat.leb n 70).

Fixpoint allHex (s : string) : bool :=
  match s with
  | EmptyString => true
  | String c rest => isHexDigit c && allHex rest
  end.

Definition isObjectId (s : string) : bool :=
  Nat.eqb (String.length s) 24 && allHex s.

(** The message as [saveChat] and [createMessage] hand it to the model. *)
Definition direct (m : Message) : Message := withType m "direct".

(** Sample parameters: ids in unary, a schema that only asks for a
    non-empty text, and an empty database. *)
Fixpoint unaryId (n : nat) : string :=
  match n with
  | O => "id"
  | S k => String "i" (unaryId k)
  end.

Definition nonEmptyText (m : Message) : bool := negb (bool_decide (msg m = "")).

Definition emptyMongo : Mongo := mkMongo [] ∅ 0.

End ChatStore.

(** ** The chat controller *)
Module ChatController.
Import ChatService.

(** A request body as [express.json()] leaves it: any JSON value, or
    nothing. An object is the list of its fields, one entry per key. *)
#[warnings="-register-all"]
Inductive JsValue :=
| JUndefined
| JNull
| JBool (b : bool)
| JNumber (n : Z)
| JString (s : string)
| JArray (items : list JsValue)
| JObject (fields : list (string * JsValue)).

Fixpoint fieldOf (key : string) (fields : list (string * JsValue)) : JsValue :=
  match fields with
  | [] => JUndefined
  | (k, v) :: rest => if bool_decide (k = key) then v else fieldOf key rest
  end.

(** [v.key]: a [TypeError] on [null] and [undefined]; [undefined] on a
    value that has no such property. *)
Definition getProp (v : JsValue) (key : string) : Outcome JsValue :=
  match v with
  | JUndefined | JNull => Rejected "TypeError"
  | JObject fields => Resolved (fieldOf key fields)
  | _ => Resolved JUndefined
  end.

(** [typeof v === 'string'] and [typeof v === 'undefined']. *)
Definition isString (v : JsValue) : bool :=
  match v with JString _ => true | _ => false end.

Definition isUndefined (v : JsValue) : bool :=
  match v with JUndefined => true | _ => false end.

(** [Array.prototype.every] with a callback that may throw: it stops at
    the first element the callback rejects or throws on. *)
Fixpoint every (p : JsValue -> Outcome bool) (items : list JsValue) : Outcome bool :=
  match items with
  | [] => Resolved true
  | x :: rest =>
      match p x with
      | Resolved true => every p rest
      | Resolved false => Resolved false
      | Rejected err => Rejected err
      end
  end.

Definition andThen {A B : Type} (o : Outcome A) (k : A -> Outcome B) : Outcome B :=
  match o with
  | Resolved a => k a
  | Rejected err => Rejected err
  end.

(** The callback of [messages.every] in [isCreateChatRequestValid], with
    the short-circuit of [&&]. *)
Definition messageShape (m : JsValue) : Outcome bool :=
  andThen (getProp m "msg") (fun msg =>
  if isString msg then
    andThen (getProp m "msgFrom") (fun msgFrom =>
    if isString msgFrom then
      andThen (getProp m "msgDateTime") (fun msgDateTime =>
      Resolved (isString msgDateTime || isUndefined msgDateTime))
    else Resolved false)
  else Resolved false).

Definition isCreateChatRequestValid (body : JsValue) : Outcome bool :=
  andThen (getProp body "participants") (fun participants =>
  andThen (getProp body "messages") (fun messages =>
  match participants with
  | JArray ps =>
      if forallb isString ps then
        match messages with
        | JArray ms => every messageShape ms
        | _ => Resolved false
        end
      else Resolved false
  | _ => Resolved false
  end)).

Definition isAddMessageRequestValid (body : JsValue) : Outcome bool :=
  andThen (getProp body "msg") (fun msg =>
  andThen (getProp body "msgFrom") (fun msgFrom =>
  andThen (getProp body "msgDateTime") (fun msgDateTime =>
  Resolved (isString msg && isString msgFrom &&
            (isString msgDateTime || isUndefined msgDateTime))))).

Definition isAddParticipantRequestValid (body : JsValue) : Outcome bool :=
  andThen (getProp body "userId") (fun userId => Resolved (isString userId)).

(** [req.body.userId], read once the validation has passed. *)
Definition bodyUserId (body : JsValue) : string :=
  match getProp body "userId" with
  | Resolved (JString s) => s
  | _ => ""
  end.

Inductive ResponseBody :=
| ErrorBody (error : string)
| ChatBody (chat : Chat)
| ChatsBody (chats : list Chat).

(** What a route does to the outside: a socket event to everybody, a
    socket event to a room, or the HTTP response. *)
Inductive Effect :=
| EmitAll (event : string) (chat : Chat) (type : string)
| EmitTo (room event : string) (chat : Chat) (type : string)
| Respond (statusCode : nat) (body : ResponseBody).

Definition isRespond (e : Effect) : bool :=
  match e with Respond _ _ => true | _ => false end.

Definition isEmit (e : Effect) : bool := negb (isRespond e).

Section Routes.

Variable Db : Type.

Variable MessageModel_create : Message -> M Db MessageDoc.
Variable ChatModel_save : list string -> list string -> M Db Chat.
Variable ChatModel_findByIdAndUpdate : string -> Update -> M Db (option Chat).
Variable ChatModel_find_all_populate : list string -> M Db (list Chat).

(** [populateDocument] of [utils/database.util], which is not part of the
    sources: it answers with the populated chat or an error object, or
    throws. *)
Variable populateDocument : string -> string -> M Db ChatResponse.

(** The body at the types the service takes: [req.body] as a
    [CreateChatPayload], and the message that [addMessageToChatRoute]
    builds from the body (typed [direct], dated by the body or by now). *)
Variable asPayload : JsValue -> CreateChatPayload.
Variable asMessage : JsValue -> Message.

Definition throw {A : Type} (err : string) : M Db A :=
  fun db => (Rejected err, db).

Local Notation "'await!' x := m 'in' k" := (bind m (fun x => k))
  (at level 10, x name, m at level 100, k at level 200).

Definition respond (statusCode : nat) (body : ResponseBody) : M Db (list Effect) :=
  ret [Respond statusCode body].

Definition createChatRoute (body : JsValue) : M Db (list Effect) :=
  tryCatch
    (match isCreateChatRequestValid body with
     | Rejected err => throw err
     | Resolved false => respond 400 (ErrorBody "Invalid request payload")
     | Resolved true =>
         await! chat := saveChat Db MessageModel_create ChatModel_save
                          (asPayload body) in
         match chat with
         | inr e => respond 500 (ErrorBody (error e))
         | inl c =>
             await! populated := populateDocument (chat_id c) "chat" in
             match populated with
             | inr e => respond 500 (ErrorBody (error e))
             | inl p =>
                 ret [EmitAll "chatUpdate" p "created"; Respond 201 (ChatBody p)]
             end
         end
     end)
    (fun _ => respond 500 (ErrorBody "Failed to create chat")).

(** A message document without an id ([!newMessage._id]) is one whose id
    is empty. *)
Definition addMessageToChatRoute (chatId : string) (body : JsValue)
    : M Db (list Effect) :=
  tryCatch
    (match isAddMessageRequestValid body with
     | Rejected err => throw err
     | Resolved false => respond 400 (ErrorBody "Invalid message payload")
     | Resolved true =>
         await! newMessage := createMessage Db MessageModel_create
                                (asMessage body) in
         match newMessage with
         | inr e => respond 500 (ErrorBody (error e))
         | inl m =>
             if bool_decide (message_id m = "") then
               respond 500 (ErrorBody "Message creation returned no ID")
             else
               await! updated := addMessageToChat Db ChatModel_findByIdAndUpdate
                                   chatId (message_id m) in
               match updated with
               | inr e => respond 500 (ErrorBody (error e))
               | inl _ =>
                   await! enrichedChat := populateDocument chatId "chat" in
                   match enrichedChat with
                   | inr e => respond 500 (ErrorBody (error e))
                   | inl p =>
                       ret [EmitTo chatId "chatUpdate" p "newMessage";
                            Respond 200 (ChatBody p)]
                   end
               end
         end
     end)
    (fun _ => respond 500 (ErrorBody "Failed to add message to chat")).

Definition getChatRoute (chatId : string) : M Db (list Effect) :=
  tryCatch
    (await! chat := populateDocument chatId "chat" in
     match chat with
     | inr e => respond 404 (ErrorBody (error e))
     | inl c => respond 200 (ChatBody c)
     end)
    (fun _ => respond 500 (ErrorBody "Failed to retrieve chat")).

(** [Promise.all]: every computation is run; the result rejects when one
    of them does. *)
Fixpoint promiseAll {A : Type} (ms : list (M Db A)) : M Db (list A) :=
  fun db =>
    match ms with
    | [] => (Resolved [], db)
    | m :: rest =>
        let '(first, db1) := m db in
        let '(others, db2) := promiseAll rest db1 in
        (match first, others with
         | Resolved a, Resolved l => Resolved (a :: l)
         | Rejected err, _ => Rejected err
         | _, Rejected err => Rejected err
         end, db2)
    end.

(** [populatedChats.filter(chat => !('error' in chat))]. *)
Fixpoint validChats (populated : list ChatResponse) : list Chat :=
  match populated with
  | [] => []
  | inl c :: rest => c :: validChats rest
  | inr _ :: rest => validChats rest
  end.

Definition getChatsByUserRoute (username : string) : M Db (list Effect) :=
  tryCatch
    (await! rawChats := getChatsByParticipants Db ChatModel_find_all_populate
                          [username] in
     await! populatedChats :=
       promiseAll (map (fun chat => populateDocument (chat_id chat) "chat")
                       rawChats) in
     respond 200 (ChatsBody (validChats populatedChats)))
    (fun _ => respond 500 (ErrorBody "Failed to fetch user chats")).

Definition addParticipantToChatRoute (chatId : string) (body : JsValue)
    : M Db (list Effect) :=
  tryCatch
    (match isAddParticipantRequestValid body with
     | Rejected err => throw err
     | Resolved false => respond 400 (ErrorBody "Invalid participant payload")
     | Resolved true =>
         await! updated := addParticipantToChat Db ChatModel_findByIdAndUpdate
                             chatId (bodyUserId body) in
         match updated with
         | inr e => respond 500 (ErrorBody (error e))
         | inl c =>
             await! enriched := populateDocument (chat_id c) "chat" in
             match enriched with
             | inr e => respond 500 (ErrorBody (error e))
             | inl p => respond 200 (ChatBody p)
             end
         end
     end)
    (fun _ => respond 500 (ErrorBody "Failed to add participant")).

End Routes.

(** The shape [isCreateChatRequestValid] asks of a message. *)
Definition messageOk (m : JsValue) : Prop :=
  exists text sender,
    getProp m "msg" = Resolved (JString text) /\
    getProp m "msgFrom" = Resolved (JString sender) /\
    (getProp m "msgDateTime" = Resolved JUndefined \/
     exists date, getProp m "msgDateTime" = Resolved (JString date)).

(** A sample [populateDocument] on the in-memory collection: the stored
    chat, an error object when there is none, a throw when the database
    cannot be reached. *)
Definition samplePopulate (id kind : string) : M MemDb ChatResponse :=
  fun db =>
    if connected db then
      match chats db !! id with
      | Some c => (Resolved (inl c), db)
      | None => (Resolved (inr (mkError "Chat not found")), db)
      end
    else (Rejected "database error", db).

(** A reading of a validated body at the types of the service: strings
    are taken as they are, a missing date reads as the empty string, and
    the message of [addMessageToChatRoute] is typed [direct] and dated by
    the body or, without a date there, by the clock ([now]). *)
Definition stringOf (v : JsValue) : string :=
  match v with JString s => s | _ => "" end.

Definition propString (v : JsValue) (key : string) : string :=
  match getProp v key with
  | Resolved p => stringOf p
  | Rejected _ => ""
  end.

Definition itemsOf (v : JsValue) : list JsValue :=
  match v with JArray items => items | _ => [] end.

Definition propItems (v : JsValue) (key : string) : list JsValue :=
  match getProp v key with
  | Resolved p => itemsOf p
  | Rejected _ => []
  end.

Definition readMessage (m : JsValue) : Message :=
  mkMessage (propString m "msg") (propString m "msgFrom")
            (propString m "msgDateTime") None.

Definition readPayload (body : JsValue) : CreateChatPayload :=
  mkPayload (stringOf <$> propItems body "participants")
            (readMessage <$> propItems body "messages").

Definition readNewMessage (now : string) (body : JsValue) : Message :=
  mkMessage (propString body "msg") (propString body "msgFrom")
            (if bool_decide (propString body "msgDateTime" = "")
             then now else propString body "msgDateTime")
            (Some "direct").

(** Sample bodies: a chat with nobody and nothing in it, one whose only
    message is [null], one whose second message has an empty text, and a
    message. *)
Definition secondEmptyBody : JsValue :=
  JObject [("participants", JArray [JString "alice"; JString "bob"]);
           ("messages",
            JArray [JObject [("msg", JString "hi"); ("msgFrom", JString "alice");
                             ("msgDateTime", JString "2025-03-01")];
                    JObject [("msg", JString ""); ("msgFrom", JString "bob");
                             ("msgDateTime", JString "2025-03-01")]])].

Definition hiBody : JsValue :=
  JObject [("msg", JString "hi"); ("msgFrom", JString "alice")].


Definition emptyChatBody : JsValue :=
  JObject [("participants", JArray []); ("messages", JArray [])].

Definition holedChatBody : JsValue :=
  JObject [("participants", JArray [JString "alice"]);
           ("messages", JArray [JNull])].

End ChatController.

(** ** The direct message hook *)
Module DirectMessage.
Import ChatService.

(** The [Chat] type of the client's [types] module is not part of the
    sources. The hook reads its optional [_id]; the rest is the chat as
    the service has it. *)
Record ClientChat := mkClientChat {
  _id : option string;
  chat : Chat
}.

(** The five [useState] cells of [useDirectMessage]. *)
Record DmState := mkDm {
  showCreatePanel : bool;
  chatToCreate : string;
  selectedChat : option ClientChat;
  chats : list ClientChat;
  newMessage : string
}.

(** Requests to the chat service of the client, state setters (the two
    functional updates have a constructor each) and socket signals. *)
Inductive DmAction :=
| CallSendMessage (msg msgFrom : string) (chatID : option string)
| CallGetChatById (chatID : string)
| CallCreateChat (participants : list string)
| SetSelectedChat (c : ClientChat)
| ReplaceSelectedIfSame (c : ClientChat)
| AppendChat (c : ClientChat)
| SetNewMessage (text : string)
| SetShowCreatePanel (b : bool)
| SetChatToCreate (username : string)
| EmitChat (event : string) (chatID : option string).

(** [prev && prev._id === chat._id ? chat : prev]. *)
Definition replaceIfSame (prev : option ClientChat) (c : ClientChat)
    : option ClientChat :=
  match prev with
  | Some p => if bool_decide (_id p = _id c) then Some c else prev
  | None => None
  end.

Definition applyDm (st : DmState) (a : DmAction) : DmState :=
  match a with
  | SetSelectedChat c =>
      mkDm (showCreatePanel st) (chatToCreate st) (Some c) (chats st) (newMessage st)
  | ReplaceSelectedIfSame c =>
      mkDm (showCreatePanel st) (chatToCreate st)
           (replaceIfSame (selectedChat st) c) (chats st) (newMessage st)
  | AppendChat c =>
      mkDm (showCreatePanel st) (chatToCreate st) (selectedChat st)
           (chats st ++ [c]) (newMessage st)
  | SetNewMessage text =>
      mkDm (showCreatePanel st) (chatToCreate st) (selectedChat st) (chats st) text
  | SetShowCreatePanel b =>
      mkDm b (chatToCreate st) (selectedChat st) (chats st) (newMessage st)
  | SetChatToCreate username =>
      mkDm (showCreatePanel st) username (selectedChat st) (chats st) (newMessage st)
  | _ => st
  end.

Definition runDm (st : DmState) (acts : list DmAction) : DmState :=
  foldl applyDm st acts.

(** The handlers have no [try]: a rejected request makes them throw after
    what they did so far. *)
Definition Handled : Type := list DmAction * option string.

Definition done (acts : list DmAction) : Handled := (acts, None).

(** [handleJoinChat]. *)
Definition handleJoinChat (socket : bool) (chatID : option string)
    : list DmAction :=
  if socket then [EmitChat "joinChat" chatID] else [].

Section Hook.

(** [String.prototype.trim] of the JavaScript runtime. *)
Variable trim : string -> string.

(** [handleSendMessage]; [res] is the outcome of the awaited
    [sendMessage], which resolves with the updated chat or an error
    object. The date of the message is the clock's. *)
Definition handleSendMessage (st : DmState) (username : string)
    (res : Outcome (ClientChat + ErrorObject)) : Handled :=
  match selectedChat st with
  | None => done []
  | Some selected =>
      if bool_decide (trim (newMessage st) = "") then done []
      else
        match res with
        | Rejected err =>
            ([CallSendMessage (newMessage st) username (_id selected)], Some err)
        | Resolved (inr _) =>
            done [CallSendMessage (newMessage st) username (_id selected)]
        | Resolved (inl updatedChat) =>
            done [CallSendMessage (newMessage st) username (_id selected);
                  SetSelectedChat updatedChat; SetNewMessage ""]
        end
  end.

End Hook.

(** [handleChatSelect]. *)
Definition handleChatSelect (socket : bool) (chatID : option string)
    (res : Outcome (ClientChat + ErrorObject)) : Handled :=
  match chatID with
  | None => done []
  | Some id =>
      if bool_decide (id = "") then done []
      else
        match res with
        | Rejected err => ([CallGetChatById id], Some err)
        | Resolved (inr _) => done [CallGetChatById id]
        | Resolved (inl fetchedChat) =>
            done (CallGetChatById id :: SetSelectedChat fetchedChat ::
                  handleJoinChat socket (Some id))
        end
  end.

(** [handleCreateChat]. *)
Definition handleCreateChat (st : DmState) (username : string) (socket : bool)
    (res : Outcome (ClientChat + ErrorObject)) : Handled :=
  if bool_decide (chatToCreate st = "") || bool_decide (username = "")
  then done []
  else
    match res with
    | Rejected err => ([CallCreateChat [username; chatToCreate st]], Some err)
    | Resolved (inr _) => done [CallCreateChat [username; chatToCreate st]]
    | Resolved (inl newChat) =>
        done (CallCreateChat [username; chatToCreate st] ::
              AppendChat newChat :: SetSelectedChat newChat ::
              handleJoinChat socket (_id newChat) ++
              [SetShowCreatePanel false; SetChatToCreate ""])
    end.

(** [handleChatUpdate], the listener of the [chatUpdate] socket event. *)
Definition handleChatUpdate (type : string) (c : ClientChat) : Handled :=
  if bool_decide (type = "created") then done [AppendChat c]
  else if bool_decide (type = "newMessage") then done [ReplaceSelectedIfSame c]
  else ([], Some ("Unknown chatUpdate type: " ++ type)).

(** The cleanup of the effect, as far as the server sees it. *)
Definition cleanup (st : DmState) (socket : bool) : list DmAction :=
  match selectedChat st with
  | Some selected =>
      if GamePageHook.truthy (_id selected) && socket
      then [EmitChat "leaveChat" (_id selected)]
      else []
  | None => []
  end.

Definition isRequest (a : DmAction) : bool :=
  match a with
  | CallSendMessage _ _ _ | CallGetChatById _ | CallCreateChat _ => true
  | _ => false
  end.

(** Trimming of the ASCII white space, which is what [trim] does on
    strings of ASCII characters. *)
Definition isSpace (c : ascii) : bool :=
  let n := nat_of_ascii c in
  Nat.eqb n 32 || (Nat.leb 9 n && Nat.leb n 13).

Fixpoint trimStart (s : string) : string :=
  match s with
  | String c rest => if isSpace c then trimStart rest else s
  | EmptyString => EmptyString
  end.

Fixpoint trimEnd (s : string) : string :=
  match s with
  | String c rest =>
      match trimEnd rest with
      | EmptyString => if isSpace c then EmptyString else String c EmptyString
      | kept => String c kept
      end
  | EmptyString => EmptyString
  end.

Definition asciiTrim (s : string) : string := trimEnd (trimStart s).

Definition sampleClientChat : ClientChat := mkClientChat (Some "c1") sampleChat.

Definition sampleDm : DmState :=
  mkDm false "bob" (Some sampleClientChat) [sampleClientChat] "hello".

End DirectMessage.

(** ** The profile settings hook *)
Module ProfileSettings.

Section Hook.

(** The [User] type of the client's [types] module, which is not part of
    the sources; the hook only stores and hands on values of it. *)
Variable User : Type.

(** The [useState] cells of [useProfileSettings]. The pending action is a
    closure over the username of the profile; it is kept as that
    username. *)
Record ProfileState := mkProfile {
  userData : option User;
  newPassword : string;
  confirmNewPassword : string;
  loading : bool;
  editBioMode : bool;
  newBio : string;
  successMessage : option string;
  errorMessage : option string;
  showConfirmation : bool;
  pendingAction : option string;
  showPassword : bool
}.

Inductive ProfileAction :=
| CallGetUserByUsername (username : string)
| CallResetPassword (username password : string)
| CallUpdateBiography (username bio : string)
| CallDeleteUser (username : string)
| SetUserData (u : option User)
| SetNewPassword (p : string)
| SetConfirmNewPassword (p : string)
| SetLoading (b : bool)
| SetEditBioMode (b : bool)
| SetSuccessMessage (m : option string)
| SetErrorMessage (m : option string)
| SetShowConfirmation (b : bool)
| SetPendingAction (username : string)
| ToggleShowPassword
| NavigateTo (path : string).

Definition applyProfile (st : ProfileState) (a : ProfileAction) : ProfileState :=
  match a with
  | SetUserData u =>
      mkProfile u (newPassword st) (confirmNewPassword st) (loading st)
        (editBioMode st) (newBio st) (successMessage st) (errorMessage st)
        (showConfirmation st) (pendingAction st) (showPassword st)
  | SetNewPassword p =>
      mkProfile (userData st) p (confirmNewPassword st) (loading st)
        (editBioMode st) (newBio st) (successMessage st) (errorMessage st)
        (showConfirmation st) (pendingAction st) (showPassword st)
  | SetConfirmNewPassword p =>
      mkProfile (userData st) (newPassword st) p (loading st)
        (editBioMode st) (newBio st) (successMessage st) (errorMessage st)
        (showConfirmation st) (pendingAction st) (showPassword st)
  | SetLoading b =>
      mkProfile (userData st) (newPassword st) (confirmNewPassword st) b
        (editBioMode st) (newBio st) (successMessage st) (errorMessage st)
        (showConfirmation st) (pendingAction st) (showPassword st)
  | SetEditBioMode b =>
      mkProfile (userData st) (newPassword st) (confirmNewPassword st) (loading st)
        b (newBio st) (successMessage st) (errorMessage st)
        (showConfirmation st) (pendingAction st) (showPassword st)
  | SetSuccessMessage m =>
      mkProfile (userData st) (newPassword st) (confirmNewPassword st) (loading st)
        (editBioMode st) (newBio st) m (errorMessage st)
        (showConfirmation st) (pendingAction st) (showPassword st)
  | SetErrorMessage m =>
      mkProfile (userData st) (newPassword st) (confirmNewPassword st) (loading st)
        (editBioMode st) (newBio st) (successMessage st) m
        (showConfirmation st) (pendingAction st) (showPassword st)
  | SetShowConfirmation b =>
      mkProfile (userData st) (newPassword st) (confirmNewPassword st) (loading st)
        (editBioMode st) (newBio st) (successMessage st) (errorMessage st)
        b (pendingAction st) (showPassword st)
  | SetPendingAction username =>
      mkProfile (userData st) (newPassword st) (confirmNewPassword st) (loading st)
        (editBioMode st) (newBio st) (successMessage st) (errorMessage st)
        (showConfirmation st) (Some username) (showPassword st)
  | ToggleShowPassword =>
      mkProfile (userData st) (newPassword st) (confirmNewPassword st) (loading st)
        (editBioMode st) (newBio st) (successMessage st) (errorMessage st)
        (showConfirmation st) (pendingAction st) (negb (showPassword st))
  | _ => st
  end.

Definition runProfile (st : ProfileState) (acts : list ProfileAction)
    : ProfileState :=
  foldl applyProfile st acts.

(** [canEditProfile]: [username === currentUser?.username], where either
    side may be [undefined]. *)
Definition canEditProfile (username currentUsername : option string) : bool :=
  bool_decide (username = currentUsername).

(** The effect: [fetchUserData], run when the route has a username. *)
Definition fetchUserData (username : option string) (res : Outcome User)
    : list ProfileAction :=
  match username with
  | Some name =>
      if GamePageHook.truthy username then
        SetLoading true :: CallGetUserByUsername name ::
        match res with
        | Resolved data => [SetUserData (Some data)]
        | Rejected _ =>
            [SetErrorMessage (Some "Error fetching user profile");
             SetUserData None]
        end ++ [SetLoading false]
      else []
  | None => []
  end.

Definition togglePasswordVisibility : list ProfileAction := [ToggleShowPassword].

(** [validatePasswords]: what it sets, and what it returns. *)
Definition validatePasswords (st : ProfileState) : list ProfileAction * bool :=
  if bool_decide (newPassword st = "") || bool_decide (confirmNewPassword st = "")
  then ([SetErrorMessage (Some "Password fields cannot be empty")], false)
  else if negb (bool_decide (newPassword st = confirmNewPassword st))
  then ([SetErrorMessage (Some "Passwords do not match")], false)
  else ([], true).

(** [handleResetPassword]: [!username || !validatePasswords()] evaluates
    the validation only when there is a username. *)
Definition handleResetPassword (st : ProfileState) (username : option string)
    (res : Outcome unit) : list ProfileAction :=
  match username with
  | Some name =>
      if GamePageHook.truthy username then
        match validatePasswords st with
        | (sets, false) => sets
        | (sets, true) =>
            sets ++ CallResetPassword name (newPassword st) ::
            match res with
            | Resolved _ =>
                [SetSuccessMessage (Some "Password reset successfully");
                 SetNewPassword ""; SetConfirmNewPassword "";
                 SetErrorMessage None]
            | Rejected _ => [SetErrorMessage (Some "Error resetting password")]
            end
        end
      else []
  | None => []
  end.

Definition handleUpdateBiography (st : ProfileState) (username : option string)
    (res : Outcome User) : list ProfileAction :=
  match username with
  | Some name =>
      if GamePageHook.truthy username then
        CallUpdateBiography name (newBio st) ::
        match res with
        | Resolved updatedUser =>
            [SetUserData (Some updatedUser); SetEditBioMode false;
             SetSuccessMessage (Some "Biography updated"); SetErrorMessage None]
        | Rejected _ => [SetErrorMessage (Some "Error updating biography")]
        end
      else []
  | None => []
  end.

(** [handleDeleteUser]: it only arms the confirmation. *)
Definition handleDeleteUser (username : option string) : list ProfileAction :=
  match username with
  | Some name =>
      if GamePageHook.truthy username
      then [SetShowConfirmation true; SetPendingAction name]
      else []
  | None => []
  end.

(** The pending action that [handleDeleteUser] stores, run on
    confirmation: the first [try] with its [finally], then the second. *)
Definition runPendingAction (username : string) (res : Outcome unit)
    : list ProfileAction :=
  CallDeleteUser username ::
  match res with
  | Resolved _ =>
      [SetSuccessMessage (Some "User deleted successfully"); NavigateTo "/"]
  | Rejected _ => [SetErrorMessage (Some "Error deleting user")]
  end ++ [SetShowConfirmation false] ++
  [NavigateTo "/"; SetShowConfirmation false].

Definition isResetRequest (a : ProfileAction) : bool :=
  match a with CallResetPassword _ _ => true | _ => false end.

Definition isNavigateTo (a : ProfileAction) : bool :=
  match a with NavigateTo _ => true | _ => false end.

Definition navigations (acts : list ProfileAction) : list ProfileAction :=
  filter (fun a => isNavigateTo a = true) acts.

End Hook.

Arguments mkProfile {User}.
Arguments CallResetPassword {User}.
Arguments CallDeleteUser {User}.
Arguments SetErrorMessage {User}.
Arguments SetSuccessMessage {User}.
Arguments SetShowConfirmation {User}.
Arguments NavigateTo {User}.
Arguments SetNewPassword {User}.
Arguments SetConfirmNewPassword {User}.
Arguments SetLoading {User}.
Arguments SetUserData {User}.
Arguments CallGetUserByUsername {User}.

(** A profile page with both password fields filled in. *)
Definition sampleProfile (password confirmation : string) : ProfileState string :=
  mkProfile None password confirmation false false "" None None false None false.

End ProfileSettings.

(** ** Theorems about the game page hook *)
Module GamePageHookFacts.
Import GamePageHook.

(** C1. A [gameError] payload sets the client's error to the payload's
    message exactly when its [player] field is the client's username: the
    listener calls [setError] with the message if and only if the names
    agree, the error state then holds that message, and a payload for
    another player leaves the whole hook state as it was. *)
Theorem handleGameError_only_addressee (username : string)
    (gameError : GameErrorPayload) (st : HookState) :
  (In (SetError (Payload.error gameError)) (handleGameError username gameError)
     <-> Payload.player gameError = username) /\
  (Payload.player gameError = username ->
     error (run st (handleGameError username gameError))
       = Some (Payload.error gameError)) /\
  (Payload.player gameError <> username ->
     run st (handleGameError username gameError) = st).
Proof.
  unfold handleGameError.
  destruct (bool_decide_reflect (Payload.player gameError = username)) as [Heq | Hne].
  - repeat split; auto; simpl; tauto.
  - repeat split; simpl; try tauto; intros; contradiction.
Qed.

(** C2. After a [gameUpdate] payload the client's game state is the
    [GameInstance] of the payload, whatever it was before; the other two
    cells are untouched. *)
Theorem handleGameUpdate_snapshot (update : GameUpdatePayload) (st : HookState) :
  gameState (run st (handleGameUpdate update)) = Some (Payload.gameState update) /\
  joinedGameID (run st (handleGameUpdate update)) = joinedGameID st /\
  error (run st (handleGameUpdate update)) = error st.
Proof. repeat split. Qed.

(** Once a joined id is recorded, a game state is there too:
    [setJoinedGameID] only ever follows [setGameState], and the game state
    is never cleared. *)
Lemma joined_has_gameState (st : HookState) :
  reachable st ->
  forall id, joinedGameID st = Some id -> exists g, gameState st = Some g.
Proof.
  induction 1 as [| st gid username socket joinRes Hr IH
                  | st update Hr IH
                  | st username gameError Hr IH]; intros id Hid.
  - discriminate.
  - unfold mountEffect in *.
    destruct gid as [gid'|]; [|eauto].
    destruct (truthy (Some gid')); [|eauto].
    unfold handleJoinGame in *.
    destruct joinRes as [game|err].
    + destruct socket; simpl in *; eauto.
    + simpl in *. eauto.
  - simpl. eauto.
  - unfold handleGameError in *.
    destruct (bool_decide (Payload.player gameError = username)); simpl in *; eauto.
Qed.

Lemma truthy_Some (o : option string) :
  truthy o = true -> exists id, o = Some id /\ id <> "".
Proof.
  destruct o as [id|]; simpl; [|discriminate].
  destruct (bool_decide_reflect (id = "")); simpl; [discriminate|eauto].
Qed.

Lemma statusNotOver_Some (g : GameInstance) :
  statusNotOver (Some g) = true <-> status (state g) <> OVER.
Proof.
  simpl. destruct (bool_decide_reflect (status (state g) = OVER)); simpl;
    split; intros; congruence.
Qed.

(** C8. The leave flow of a client in a reachable hook state: a leave
    request (the [leaveGame] call or the [leaveGame] signal) is among the
    actions only when a joined id is recorded and the game's status is not
    [OVER]; when the status is [OVER] the flow is the navigation alone; and
    in every case the flow ends with the one navigation to [/games]. *)
Theorem handleLeaveGame_guarded (st : HookState) (username : string)
    (socket : bool) (leaveRes : Outcome unit) :
  reachable st ->
  (forall a, In a (handleLeaveGame st username socket leaveRes) ->
     isLeaveRequest a = true ->
     exists id g,
       joinedGameID st = Some id /\ id <> "" /\
       gameState st = Some g /\ status (state g) <> OVER /\
       (a = CallLeaveGame id username \/ a = Emit "leaveGame" id)) /\
  (forall g, gameState st = Some g -> status (state g) = OVER ->
     handleLeaveGame st username socket leaveRes = [Navigate "/games"]) /\
  (exists before,
     handleLeaveGame st username socket leaveRes
       = (before ++ [Navigate "/games"])%list /\
     forall a, In a before -> isNavigate a = false).
Proof.
  intros Hreach. unfold handleLeaveGame.
  destruct (truthy (joinedGameID st)) eqn:Hj; simpl.
  - destruct (truthy_Some _ Hj) as (id & Hid & Hne).
    destruct (joined_has_gameState st Hreach id Hid) as [g Hg].
    rewrite Hid, Hg.
    destruct (statusNotOver (Some g)) eqn:Hs.
    + apply statusNotOver_Some in Hs.
      split; [|split].
      * intros a Ha Hreq. exists id, g.
        do 4 (split; [solve [reflexivity | assumption]|]).
        destruct leaveRes as [[]|err]; [destruct socket|]; simpl in Ha;
          repeat (destruct Ha as [<- | Ha];
                  [first [left; reflexivity | right; reflexivity
                         | simpl in Hreq; discriminate]|]);
          contradiction.
      * intros g' Hg' Hover. congruence.
      * eexists. split; [reflexivity|].
        intros a Ha.
        destruct leaveRes as [[]|err]; [destruct socket|]; simpl in Ha;
          repeat (destruct Ha as [<- | Ha]; [reflexivity|]); contradiction.
    + split; [|split].
      * simpl. intros a [<- | []] Hreq. discriminate.
      * reflexivity.
      * exists []. split; [reflexivity|]. intros a [].
  - split; [|split].
    + simpl. intros a [<- | []] Hreq. discriminate.
    + reflexivity.
    + exists []. split; [reflexivity|]. intros a [].
Qed.

Lemma handleLeaveGame_guarded_witness :
  handleLeaveGame (joinedState OVER) "alice" true (Resolved ()) = [Navigate "/games"].
Proof.
  apply (proj1 (proj2 (handleLeaveGame_guarded (joinedState OVER) "alice" true
                         (Resolved ()) (reach_mount _ _ _ _ _ reach_init)))
           (sampleGame OVER));
    reflexivity.
Defined.

Example handleLeaveGame_in_progress :
  handleLeaveGame (joinedState IN_PROGRESS) "alice" true (Resolved ())
  = [CallLeaveGame "g1" "alice"; Emit "leaveGame" "g1"; Navigate "/games"].
Proof. reflexivity. Qed.

Example handleLeaveGame_request_rejected :
  handleLeaveGame (joinedState WAITING) "alice" true (Rejected "500")
  = [CallLeaveGame "g1" "alice"; ConsoleError "Failed to leave game:";
     Navigate "/games"].
Proof. reflexivity. Qed.

Example handleLeaveGame_not_joined :
  handleLeaveGame initial "alice" true (Resolved ()) = [Navigate "/games"].
Proof. reflexivity. Qed.

Lemma handleGameError_only_addressee_witness :
  error (run initial (handleGameError "alice" (Payload.mkGameError "alice" "Invalid move")))
  = Some "Invalid move".
Proof.
  apply (proj1 (proj2 (handleGameError_only_addressee "alice"
                         (Payload.mkGameError "alice" "Invalid move") initial))).
  reflexivity.
Defined.

Example handleGameError_other_player :
  run (joinedState IN_PROGRESS) (handleGameError "alice" (Payload.mkGameError "bob" "Not your turn"))
  = joinedState IN_PROGRESS.
Proof. reflexivity. Qed.

(** The join request is the first action of the join handler, and the
    [joinGame] signal, when it is sent, is the last. *)
Lemma handleJoinGame_emit_position (id username : string) (socket : bool)
    (joinRes : Outcome GameInstance) (j : nat) (event arg : string) :
  handleJoinGame id username socket joinRes !! j = Some (Emit event arg) ->
  j = 3 /\ event = "joinGame" /\ arg = id /\ socket = true /\
  exists game, joinRes = Resolved game.
Proof.
  unfold handleJoinGame, joinFailed.
  destruct joinRes as [game|err]; [destruct socket|];
    destruct j as [|[|[|[|[|[|j]]]]]]; simpl; try discriminate;
    intros [= <- <-]; eauto 10.
Qed.

(** C4, as the code has it. The join handler first invokes [joinGame] and
    sends the [joinGame] signal, which subscribes the connection, only
    afterwards and only when the request succeeded: the signal is never
    before the request. On success the client's game state is the full
    [GameInstance] the request returned and the joined id is recorded; on
    failure no signal is sent, the game state is untouched, and this
    client's error is set before it navigates back to the games list. *)
Theorem handleJoinGame_join_then_subscribe (id username : string)
    (socket : bool) (joinRes : Outcome GameInstance) (st : HookState) :
  handleJoinGame id username socket joinRes !! 0 = Some (CallJoinGame id username) /\
  (forall j event arg,
     handleJoinGame id username socket joinRes !! j = Some (Emit event arg) ->
     0 < j /\ event = "joinGame" /\ arg = id /\
     exists game, joinRes = Resolved game) /\
  (forall game, joinRes = Resolved game ->
     gameState (run st (handleJoinGame id username socket joinRes)) = Some game /\
     joinedGameID (run st (handleJoinGame id username socket joinRes)) = Some id) /\
  (forall game, joinRes = Resolved game -> socket = true ->
     handleJoinGame id username socket joinRes
     = [CallJoinGame id username; SetGameState game; SetJoinedGameID id;
        Emit "joinGame" id]) /\
  (forall err, joinRes = Rejected err ->
     handleJoinGame id username socket joinRes
     = [CallJoinGame id username;
        SetError "Failed to join game. Please try again.";
        ConsoleError err; Navigate "/games"] /\
     gameState (run st (handleJoinGame id username socket joinRes)) = gameState st /\
     error (run st (handleJoinGame id username socket joinRes))
     = Some "Failed to join game. Please try again.").
Proof.
  split; [reflexivity|]. split; [|split; [|split]].
  - intros j event arg Hj.
    destruct (handleJoinGame_emit_position _ _ _ _ _ _ _ Hj)
      as (-> & -> & -> & _ & Hres).
    repeat split; [lia | assumption].
  - intros game ->. destruct socket; split; reflexivity.
  - intros game -> ->. reflexivity.
  - intros err ->. repeat split.
Qed.

Lemma handleJoinGame_join_then_subscribe_witness :
  handleJoinGame "g1" "alice" true (Resolved (sampleGame WAITING))
  = [CallJoinGame "g1" "alice"; SetGameState (sampleGame WAITING);
     SetJoinedGameID "g1"; Emit "joinGame" "g1"].
Proof.
  apply (proj1 (proj2 (proj2 (proj2
           (handleJoinGame_join_then_subscribe "g1" "alice" true
              (Resolved (sampleGame WAITING)) initial))))
           (sampleGame WAITING));
    reflexivity.
Defined.

(** C4, as the design document states it, fails: for a successful join of
    game [g1] by [alice] the subscription signal does not come before the
    [joinGame] request. *)
Lemma handleJoinGame_not_subscribe_first :
  ~ subscribesBeforeJoin
      (handleJoinGame "g1" "alice" true (Resolved (sampleGame WAITING)))
      "g1" "alice".
Proof.
  intros (i & j & Hi & Hj & Hlt).
  apply handleJoinGame_emit_position in Hi as (-> & _).
  destruct j as [|[|[|j]]]; [lia | lia | lia |].
  destruct j; discriminate Hj.
Qed.

End GamePageHookFacts.

(** ** Theorems about the game page component *)
Module GamePageFacts.
Import GamePage.

(** C5. Rendering a loaded game is a total switch on the upper-cased game
    type: when it upper-cases to ["NIM"] the Nim game component is shown
    with the game state, and for every other game type the fallback naming
    the unsupported type is shown; there is no third outcome. *)
Theorem renderGameComponent_switch (toUpperCase : string -> string)
    (g : GameInstance) (gameType : string) :
  (toUpperCase gameType = "NIM" ->
     renderGameComponent toUpperCase (Some g) gameType = NimGamePage g) /\
  (toUpperCase gameType <> "NIM" ->
     renderGameComponent toUpperCase (Some g) gameType
     = UnsupportedGameType gameType) /\
  (renderGameComponent toUpperCase (Some g) gameType = NimGamePage g \/
   renderGameComponent toUpperCase (Some g) gameType
   = UnsupportedGameType gameType).
Proof.
  unfold renderGameComponent.
  destruct (bool_decide_reflect (toUpperCase gameType = "NIM")) as [Heq | Hne].
  - repeat split; auto. intros Hne. contradiction.
  - repeat split; auto. intros Heq. contradiction.
Qed.

Lemma renderGameComponent_switch_witness :
  renderGameComponent asciiToUpperCase (Some (GamePageHook.sampleGame WAITING)) "Nim"
  = NimGamePage (GamePageHook.sampleGame WAITING).
Proof.
  apply (proj1 (renderGameComponent_switch asciiToUpperCase
                  (GamePageHook.sampleGame WAITING) "Nim")).
  reflexivity.
Defined.

Example render_lower_case_nim (g : GameInstance) :
  renderGameComponent asciiToUpperCase (Some g) "nim" = NimGamePage g.
Proof. reflexivity. Qed.

Example render_other_type (g : GameInstance) :
  renderGameComponent asciiToUpperCase (Some g) "Chess" = UnsupportedGameType "Chess".
Proof. reflexivity. Qed.

Example render_page_of_sample :
  gamePageBody asciiToUpperCase (Some (GamePageHook.sampleGame IN_PROGRESS))
  = NimGamePage (GamePageHook.sampleGame IN_PROGRESS).
Proof. reflexivity. Qed.

End GamePageFacts.

(** ** Theorems about the Nim rules *)
Module NimRulesFacts.
Import NimRules.

(** C7. In an in-progress game a move by a player who is not the recorded
    turn-holder is rejected with [NotYourTurn], whatever the quantity, and
    submitting it leaves the store, and so the session's state, exactly as
    it was. *)
Theorem applyMove_not_your_turn (lastTakerWins : bool)
    (store : gmap string GameInstance) (sessionId playerId : string)
    (g : GameInstance) (move : Z) :
  store !! sessionId = Some g ->
  status (state g) = IN_PROGRESS ->
  turn (state g) <> Some playerId ->
  applyMove lastTakerWins (players g) (state g) playerId move = inl NotYourTurn /\
  submitMove lastTakerWins store sessionId playerId move
  = (store, Failed NotYourTurn) /\
  fst (submitMove lastTakerWins store sessionId playerId move) !! sessionId
  = Some g.
Proof.
  intros Hg _ Hturn.
  assert (Happ : applyMove lastTakerWins (players g) (state g) playerId move
                 = inl NotYourTurn).
  { unfold applyMove.
    destruct (bool_decide_reflect (turn (state g) = Some playerId));
      [contradiction | reflexivity]. }
  assert (Hsub : submitMove lastTakerWins store sessionId playerId move
                 = (store, Failed NotYourTurn)).
  { unfold submitMove, mutate, applyMoveTo. rewrite Hg, Happ. reflexivity. }
  rewrite Hsub. auto.
Qed.

Lemma applyMove_not_your_turn_witness :
  submitMove true sampleStore "g1" "bob" 2 = (sampleStore, Failed NotYourTurn).
Proof.
  apply (applyMove_not_your_turn true sampleStore "g1" "bob"
           (GamePageHook.sampleGame IN_PROGRESS) 2);
    [reflexivity | reflexivity | discriminate].
Defined.

Example applyMove_turn_holder :
  applyMove true ["alice"; "bob"] (mkNimState IN_PROGRESS 21 (Some "alice") None)
    "alice" 3
  = inr (mkNimState IN_PROGRESS 18 (Some "bob") None).
Proof. reflexivity. Qed.

Example applyMove_last_object :
  applyMove true ["alice"; "bob"] (mkNimState IN_PROGRESS 1 (Some "bob") None)
    "bob" 1
  = inr (mkNimState OVER 0 (Some "bob") (Some "bob")).
Proof. reflexivity. Qed.

Example applyMove_too_many :
  applyMove true ["alice"; "bob"] (mkNimState IN_PROGRESS 2 (Some "alice") None)
    "alice" 3
  = inl InvalidQuantity.
Proof. reflexivity. Qed.

End NimRulesFacts.

(** ** Theorems about the session lifecycle manager *)
Module SessionLifecycleFacts.
Import NimRules SessionLifecycle.



Example createGame_unsupported :
  createGame 21 sampleStore "Chess" "carol" = (sampleStore, inl InvalidGameType).
Proof. reflexivity. Qed.

End SessionLifecycleFacts.

(** ** Theorems about the chat service *)
Module ChatServiceFacts.
Import ChatService.

Section Totality.

Context {Db : Type}.

Lemma ret_resolves {A : Type} (a : A) : resolves (Db := Db) (ret a).
Proof. intros db. exists a, db. reflexivity. Qed.

(** A [try] whose handler returns normally returns normally. *)
Lemma tryCatch_resolves {A : Type} (m : M Db A) (handler : string -> M Db A) :
  (forall err, resolves (handler err)) -> resolves (tryCatch m handler).
Proof.
  intros Hh db. unfold tryCatch.
  destruct (m db) as [[a | err] db'].
  - exists a, db'. reflexivity.
  - apply Hh.
Qed.

(** What a rejected body turns into. *)
Lemma tryCatch_rejected {A : Type} (m : M Db A) (handler : string -> M Db A)
    (db db' : Db) (err : string) :
  m db = (Rejected err, db') -> tryCatch m handler db = handler err db'.
Proof. intros Hm. unfold tryCatch. rewrite Hm. reflexivity. Qed.

End Totality.

Create HintDb chat.
#[local] Hint Resolve ret_resolves tryCatch_resolves : chat.

(** The three ways [addParticipantToChat] ends, by what the update did. *)
Lemma addParticipantToChat_cases {Db : Type}
    (findByIdAndUpdate : string -> Update -> M Db (option Chat))
    (chatId userId : string) (db : Db) :
  addParticipantToChat Db findByIdAndUpdate chatId userId db
  = match findByIdAndUpdate chatId (AddToSet_participants userId) db with
    | (Resolved (Some c), db') => (Resolved (inl c), db')
    | (Resolved None, db') => (Resolved (inr (mkError "Chat not found")), db')
    | (Rejected _, db') =>
        (Resolved (inr (mkError "Failed to add participant")), db')
    end.
Proof.
  unfold addParticipantToChat, tryCatch, bind.
  destruct (findByIdAndUpdate chatId (AddToSet_participants userId) db)
    as [[[c|] | err] db']; reflexivity.
Qed.

(** C10. Whatever the database operations do, each function of the chat
    service returns to its caller with a result: [saveChat],
    [createMessage], [addMessageToChat], [getChat] and
    [addParticipantToChat] with the document or an error object, and
    [getChatsByParticipants] with a list, which is empty when the query
    rejects. None of them rejects. *)
Theorem chat_service_never_throws {Db : Type}
    (MessageModel_create : Message -> M Db MessageDoc)
    (ChatModel_save : list string -> list string -> M Db Chat)
    (ChatModel_findByIdAndUpdate : string -> Update -> M Db (option Chat))
    (ChatModel_findById_populate : string -> M Db (option Chat))
    (ChatModel_find_all_populate : list string -> M Db (list Chat))
    (chatPayload : CreateChatPayload) (messageData : Message)
    (chatId messageId userId : string) (p : list string) :
  resolves (saveChat Db MessageModel_create ChatModel_save chatPayload) /\
  resolves (createMessage Db MessageModel_create messageData) /\
  resolves (addMessageToChat Db ChatModel_findByIdAndUpdate chatId messageId) /\
  resolves (getChat Db ChatModel_findById_populate chatId) /\
  resolves (addParticipantToChat Db ChatModel_findByIdAndUpdate chatId userId) /\
  resolves (getChatsByParticipants Db ChatModel_find_all_populate p) /\
  (forall db db' err,
     ChatModel_find_all_populate p db = (Rejected err, db') ->
     getChatsByParticipants Db ChatModel_find_all_populate p db
     = (Resolved [], db')).
Proof.
  repeat split;
    try (unfold saveChat, createMessage, addMessageToChat, getChat,
           addParticipantToChat, getChatsByParticipants;
         solve [auto with chat]).
  intros db db' err Hfind.
  unfold getChatsByParticipants.
  rewrite (tryCatch_rejected _ _ db db' err); [reflexivity|].
  unfold bind. rewrite Hfind. reflexivity.
Qed.

Lemma chat_service_never_throws_witness :
  getChatsByParticipants MemDb (fun _ => unreachable) ["alice"] sampleDb
  = (Resolved [], sampleDb).
Proof.
  apply (proj2 (proj2 (proj2 (proj2 (proj2 (proj2
           (chat_service_never_throws (Db := MemDb)
              (fun _ => unreachable) (fun _ _ => unreachable)
              (fun _ _ => unreachable) (fun _ => unreachable)
              (fun _ => unreachable)
              (mkPayload [] []) (mkMessage "" "" "" None) "" "" ""
              ["alice"])))))) sampleDb sampleDb "database error").
  reflexivity.
Defined.

Example saveChat_database_down :
  saveChat MemDb (fun _ => unreachable) (fun _ _ => unreachable)
    (mkPayload ["alice"] [mkMessage "hi" "alice" "2025-03-01" None]) sampleDb
  = (Resolved (inr (mkError "Failed to create chat")), sampleDb).
Proof. reflexivity. Qed.

(** *** [$addToSet] on the participants *)

Lemma addToSet_present (x : string) (l : list string) :
  x ∈ l -> addToSet x l = l.
Proof.
  intros Hin. unfold addToSet.
  destruct (bool_decide_reflect (x ∈ l)); [reflexivity | contradiction].
Qed.

Lemma addToSet_elem (x : string) (l : list string) : x ∈ addToSet x l.
Proof.
  unfold addToSet.
  destruct (bool_decide_reflect (x ∈ l)) as [Hin | Hnin]; [assumption|].
  apply elem_of_app. right. apply list_elem_of_singleton. reflexivity.
Qed.

Lemma addToSet_twice (x : string) (l : list string) :
  addToSet x (addToSet x l) = addToSet x l.
Proof. apply addToSet_present, addToSet_elem. Qed.

Lemma applyUpdate_present (userId : string) (c : Chat) :
  userId ∈ participants c -> applyUpdate (AddToSet_participants userId) c = c.
Proof.
  intros Hin. destruct c as [cid ps ms]. simpl in *.
  rewrite addToSet_present by assumption. reflexivity.
Qed.

Lemma applyUpdate_twice (userId : string) (c : Chat) :
  applyUpdate (AddToSet_participants userId)
    (applyUpdate (AddToSet_participants userId) c)
  = applyUpdate (AddToSet_participants userId) c.
Proof. apply applyUpdate_present. simpl. apply addToSet_elem. Qed.

(** Running the service on the in-memory collection. *)
Lemma addParticipantToChat_mem (chatId userId : string) (db : MemDb) :
  addParticipantToChat MemDb memFindByIdAndUpdate chatId userId db
  = if connected db then
      match chats db !! chatId with
      | None => (Resolved (inr (mkError "Chat not found")), db)
      | Some c =>
          (Resolved (inl (applyUpdate (AddToSet_participants userId) c)),
           mkMemDb (<[chatId := applyUpdate (AddToSet_participants userId) c]>
                      (chats db)) (connected db))
      end
    else (Resolved (inr (mkError "Failed to add participant")), db).
Proof.
  rewrite addParticipantToChat_cases. unfold memFindByIdAndUpdate.
  destruct (connected db); [|reflexivity].
  destruct (chats db !! chatId); reflexivity.
Qed.

(** C9. [addParticipantToChat] is idempotent on the participants: adding a
    user who is already a participant of the chat leaves the stored chat,
    and with it the participants list, as it was and returns that chat; and
    a second call with the same user ends with the same result and the same
    database as the first, so the participants after two calls are those
    after one. *)
Theorem addParticipantToChat_idempotent (chatId userId : string) (db : MemDb) :
  (forall c, chats db !! chatId = Some c -> userId ∈ participants c ->
     snd (addParticipantToChat MemDb memFindByIdAndUpdate chatId userId db) = db /\
     (connected db = true ->
      fst (addParticipantToChat MemDb memFindByIdAndUpdate chatId userId db)
      = Resolved (inl c))) /\
  (forall r1 db1,
     addParticipantToChat MemDb memFindByIdAndUpdate chatId userId db = (r1, db1) ->
     addParticipantToChat MemDb memFindByIdAndUpdate chatId userId db1 = (r1, db1)) /\
  participantsOf
    (snd (addParticipantToChat MemDb memFindByIdAndUpdate chatId userId
       (snd (addParticipantToChat MemDb memFindByIdAndUpdate chatId userId db))))
    chatId
  = participantsOf
      (snd (addParticipantToChat MemDb memFindByIdAndUpdate chatId userId db))
      chatId.
Proof.
  assert (Hidem : forall r1 db1,
     addParticipantToChat MemDb memFindByIdAndUpdate chatId userId db = (r1, db1) ->
     addParticipantToChat MemDb memFindByIdAndUpdate chatId userId db1 = (r1, db1)).
  { intros r1 db1. rewrite !addParticipantToChat_mem.
    destruct db as [cs conn]. cbn [connected chats].
    destruct conn.
    - destruct (cs !! chatId) as [c|] eqn:Hc.
      + intros [= <- <-]. cbn [connected chats].
        rewrite lookup_insert_eq. cbv beta iota.
        rewrite applyUpdate_present by apply addToSet_elem.
        rewrite insert_insert_eq.
        reflexivity.
      + intros [= <- <-]. simpl. rewrite Hc. reflexivity.
    - intros [= <- <-]. reflexivity. }
  split; [|split; [exact Hidem|]].
  - intros c Hc Hin. rewrite addParticipantToChat_mem.
    destruct db as [cs conn]. cbn [connected chats] in *. rewrite Hc.
    rewrite applyUpdate_present by assumption.
    rewrite insert_id by assumption.
    destruct conn; split; try reflexivity; intros; congruence.
  - destruct (addParticipantToChat MemDb memFindByIdAndUpdate chatId userId db)
      as [r1 db1] eqn:H1.
    simpl. rewrite (Hidem r1 db1 eq_refl). reflexivity.
Qed.

Lemma addParticipantToChat_idempotent_witness :
  addParticipantToChat MemDb memFindByIdAndUpdate "c1" "bob" sampleDb
  = (Resolved (inl sampleChat), sampleDb).
Proof.
  pose proof (proj1 (addParticipantToChat_idempotent "c1" "bob" sampleDb)
                sampleChat) as H.
  destruct H as [Hdb Hres].
  - reflexivity.
  - unfold sampleChat. simpl. set_solver.
  - specialize (Hres eq_refl).
    rewrite (surjective_pairing
               (addParticipantToChat MemDb memFindByIdAndUpdate "c1" "bob" sampleDb)).
    rewrite Hdb, Hres. reflexivity.
Defined.

Example addParticipantToChat_new_user :
  participantsOf
    (snd (addParticipantToChat MemDb memFindByIdAndUpdate "c1" "carol" sampleDb)) "c1"
  = Some ["alice"; "bob"; "carol"].
Proof. vm_compute. reflexivity. Qed.

Example addParticipantToChat_unknown_chat :
  fst (addParticipantToChat MemDb memFindByIdAndUpdate "c2" "carol" sampleDb)
  = Resolved (inr (mkError "Chat not found")).
Proof. vm_compute. reflexivity. Qed.

Example addParticipantToChat_database_down :
  fst (addParticipantToChat MemDb memFindByIdAndUpdate "c1" "carol"
         (mkMemDb (chats sampleDb) false))
  = Resolved (inr (mkError "Failed to add participant")).
Proof. reflexivity. Qed.

End ChatServiceFacts.

(** ** Further theorems about the game page hook *)
Module GamePageEventsFacts.
Import GamePageHook GamePageEvents.

(** X1. When a joined id is recorded and the game is not over, the leave
    flow starts with the [leaveGame] request for that id and this user; the
    [leaveGame] signal follows exactly when the request resolved and a
    socket is there. *)
Theorem handleLeaveGame_sends_request (st : HookState) (username : string)
    (socket : bool) (leaveRes : Outcome unit) (id : string) :
  joinedGameID st = Some id -> id <> "" ->
  statusNotOver (gameState st) = true ->
  handleLeaveGame st username socket leaveRes !! 0
    = Some (CallLeaveGame id username) /\
  (In (Emit "leaveGame" id) (handleLeaveGame st username socket leaveRes)
     <-> socket = true /\ exists u, leaveRes = Resolved u).
Proof.
  intros Hid Hne Hst. unfold handleLeaveGame. rewrite Hid, Hst. simpl.
  destruct (bool_decide_reflect (id = "")); [contradiction|]. simpl.
  split; [reflexivity|].
  destruct leaveRes as [u|err]; [destruct socket|]; simpl; split.
  - intros _. eauto.
  - intros _. right. left. reflexivity.
  - intros [H | [H | []]]; discriminate.
  - intros [H _]. discriminate.
  - intros [H | [H | [H | []]]]; discriminate.
  - intros [_ [u H]]. discriminate.
Qed.

Lemma handleLeaveGame_sends_request_witness :
  handleLeaveGame (joinedState IN_PROGRESS) "alice" true (Rejected "500") !! 0
  = Some (CallLeaveGame "g1" "alice").
Proof.
  apply (handleLeaveGame_sends_request (joinedState IN_PROGRESS) "alice" true
           (Rejected "500") "g1"); [reflexivity | discriminate | reflexivity].
Defined.

(** The leave flow has no state setter in it. *)
Lemma leave_flow_inert (st st0 : HookState) (username : string)
    (socket : bool) (leaveRes : Outcome unit) :
  run st0 (handleLeaveGame st username socket leaveRes) = st0.
Proof.
  unfold handleLeaveGame.
  destruct (truthy (joinedGameID st) && statusNotOver (gameState st));
    [|reflexivity].
  destruct (joinedGameID st) as [id|]; [|reflexivity].
  destruct leaveRes as [u|err]; [destruct socket|]; reflexivity.
Qed.

(** X2. Leaving never touches the hook's state: whatever the state, the
    socket and the outcome of the request, the game state, the joined id
    and the error are after the leave flow what they were before it, also
    when the leave request was sent and succeeded. *)
Theorem handleLeaveGame_keeps_state (st : HookState) (username : string)
    (socket : bool) (leaveRes : Outcome unit) :
  run st (handleLeaveGame st username socket leaveRes) = st /\
  gameState (run st (handleLeaveGame st username socket leaveRes)) = gameState st /\
  joinedGameID (run st (handleLeaveGame st username socket leaveRes))
  = joinedGameID st.
Proof. rewrite leave_flow_inert. auto. Qed.

(** X4. The effect sends a join request exactly when the route carries a
    non-empty game id: then it sends one request, for that id and this
    user, as its first action; with no id or an empty one it does
    nothing. *)
Theorem mountEffect_joins_iff_id (gameID : option string) (username : string)
    (socket : bool) (joinRes : Outcome GameInstance) :
  (forall id, gameID = Some id -> id <> "" ->
     joinCalls (mountEffect gameID username socket joinRes)
     = [CallJoinGame id username] /\
     mountEffect gameID username socket joinRes !! 0
     = Some (CallJoinGame id username)) /\
  (gameID = None \/ gameID = Some "" ->
     mountEffect gameID username socket joinRes = []).
Proof.
  split.
  - intros id -> Hne. unfold mountEffect. simpl.
    destruct (bool_decide_reflect (id = "")); [contradiction|]. simpl.
    split; [|reflexivity].
    destruct joinRes as [game|err]; [destruct socket|]; reflexivity.
  - intros [-> | ->]; reflexivity.
Qed.

Lemma mountEffect_joins_iff_id_witness :
  joinCalls (mountEffect (Some "g1") "alice" true (Rejected "404"))
  = [CallJoinGame "g1" "alice"].
Proof.
  apply (proj1 (mountEffect_joins_iff_id (Some "g1") "alice" true (Rejected "404"))
           "g1"); [reflexivity | discriminate].
Defined.

End GamePageEventsFacts.

(** ** Further theorems about the game page component *)
Module GamePageBodyFacts.
Import GamePage.

(** X5. The page never shows the "Loading game..." branch of
    [renderGameComponent]: with no game state it shows "Loading game
    data..." without calling it, and with a game state it shows the Nim
    component for exactly that state or the fallback for exactly that
    state's game type. *)
Theorem gamePageBody_cases (toUpperCase : string -> string)
    (gameState : option GameInstance) :
  gamePageBody toUpperCase gameState <> LoadingGame /\
  (gamePageBody toUpperCase gameState = LoadingGameData <-> gameState = None) /\
  (forall g, gameState = Some g ->
     gamePageBody toUpperCase gameState = NimGamePage g \/
     gamePageBody toUpperCase gameState = UnsupportedGameType (gameType g)).
Proof.
  unfold gamePageBody, renderGameComponent.
  destruct gameState as [g|].
  - destruct (bool_decide (toUpperCase (gameType g) = "NIM"));
      (split; [discriminate|]); (split; [split; discriminate|]);
      intros g' [= <-]; auto.
  - split; [discriminate|]. split; [tauto|]. discriminate.
Qed.

Lemma gamePageBody_cases_witness :
  gamePageBody asciiToUpperCase None = LoadingGameData.
Proof.
  apply (proj2 (proj1 (proj2 (gamePageBody_cases asciiToUpperCase None)))).
  reflexivity.
Defined.

End GamePageBodyFacts.

(** ** Theorems about the state of the "All Games" page *)
Module AllGamesPageStateFacts.
Import GamePageHook AllGamesPage AllGamesPageState.

(** X6. Choosing a game type always closes the modal, whether the creation
    succeeds or not, and never touches the list of games; the page
    navigates exactly when the creation resolved, and then to the page of
    the new game. *)
Theorem handleSelectGameType_closes (gameType : string)
    (createRes : Outcome string) (st : PageState) :
  isModalOpen (runPage st (handleSelectGameType gameType createRes)) = false /\
  availableGames (runPage st (handleSelectGameType gameType createRes))
  = availableGames st /\
  handleSelectGameType gameType createRes !! 0
  = Some (Hook (CallCreateGame gameType)) /\
  (forall path,
     In (Hook (Navigate path)) (handleSelectGameType gameType createRes)
     <-> exists newGameID,
           createRes = Resolved newGameID /\ path = "/games/" ++ newGameID).
Proof.
  destruct createRes as [newGameID|err]; simpl.
  - repeat split; try reflexivity.
    + intros [H | [H | [H | []]]]; try discriminate.
      injection H as <-. eauto.
    + intros (id & [= <-] & ->). right. right. left. reflexivity.
  - repeat split; try reflexivity.
    + intros [H | [H | [H | []]]]; discriminate.
    + intros (id & H & _). discriminate.
Qed.

Lemma handleSelectGameType_closes_witness :
  In (Hook (Navigate "/games/g1")) (handleSelectGameType "Nim" (Resolved "g1")).
Proof.
  apply (proj2 (proj2 (proj2 (handleSelectGameType_closes "Nim" (Resolved "g1")
                                (mkPage [] true)))) "/games/g1").
  exists "g1". split; reflexivity.
Defined.

(** X7. Fetching the games replaces the list with the fetched one when the
    request succeeds and keeps the list that was there when it fails; in
    neither case does it open or close the modal. *)
Theorem fetchGames_replaces_or_keeps (res : Outcome (list GameInstance))
    (st : PageState) :
  (forall games, res = Resolved games ->
     availableGames (runPage st (fetchGames res)) = games) /\
  (forall err, res = Rejected err ->
     runPage st (fetchGames res) = st) /\
  isModalOpen (runPage st (fetchGames res)) = isModalOpen st.
Proof.
  destruct res as [games|err]; simpl; (split; [|split]).
  - intros games' [= <-]. reflexivity.
  - discriminate.
  - reflexivity.
  - discriminate.
  - intros _ _. reflexivity.
  - reflexivity.
Qed.

Lemma fetchGames_replaces_or_keeps_witness :
  runPage (mkPage [sampleGame WAITING] false) (fetchGames (Rejected "500"))
  = mkPage [sampleGame WAITING] false.
Proof.
  apply (proj1 (proj2 (fetchGames_replaces_or_keeps (Rejected "500")
                         (mkPage [sampleGame WAITING] false))) "500").
  reflexivity.
Defined.

End AllGamesPageStateFacts.

(** ** Further theorems about the chat service *)
Module ChatStoreFacts.
Import ChatService ChatStore.

Lemma addMessageToChat_mem (chatId messageId : string) (db : MemDb) :
  addMessageToChat MemDb memFindByIdAndUpdate chatId messageId db
  = if connected db then
      match chats db !! chatId with
      | None => (Resolved (inr (mkError "Chat not found")), db)
      | Some c =>
          (Resolved (inl (applyUpdate (Push_messages messageId) c)),
           mkMemDb (<[chatId := applyUpdate (Push_messages messageId) c]>
                      (chats db)) (connected db))
      end
    else (Resolved (inr (mkError "Failed to add message to chat")), db).
Proof.
  unfold addMessageToChat, tryCatch, bind, memFindByIdAndUpdate.
  destruct (connected db); [|reflexivity].
  destruct (chats db !! chatId); reflexivity.
Qed.

(** X8. [addParticipantToChat] touches nothing but the participants of the
    one chat: every other chat and the connection are as before; the chat
    keeps its id and its messages; its participants are unchanged when the
    user is one of them, and are the old ones in their order with the user
    appended at the end when the user is new. For an id of the right
    format that no chat has, the answer is "Chat not found"; for an id of
    the wrong format it is "Failed to add participant"; the database is
    unchanged in both cases: no chat is created. *)
Theorem addParticipantToChat_frame (validId : string -> bool)
    (chatId userId : string) (db : MemDb) :
  (forall other, other <> chatId ->
     chats (snd (addParticipantToChat MemDb (castFindByIdAndUpdate validId)
                   chatId userId db))
       !! other = chats db !! other) /\
  connected (snd (addParticipantToChat MemDb (castFindByIdAndUpdate validId)
                    chatId userId db))
  = connected db /\
  (forall c, validId chatId = true -> chats db !! chatId = Some c ->
     connected db = true ->
     exists c',
       addParticipantToChat MemDb (castFindByIdAndUpdate validId) chatId userId db
       = (Resolved (inl c'), mkMemDb (<[chatId := c']> (chats db)) true) /\
       chat_id c' = chat_id c /\ messages c' = messages c /\
       (userId ∈ participants c -> participants c' = participants c) /\
       (userId ∉ participants c ->
        participants c' = (participants c ++ [userId])%list)) /\
  (validId chatId = true -> chats db !! chatId = None -> connected db = true ->
     addParticipantToChat MemDb (castFindByIdAndUpdate validId) chatId userId db
     = (Resolved (inr (mkError "Chat not found")), db)) /\
  (validId chatId = false ->
     addParticipantToChat MemDb (castFindByIdAndUpdate validId) chatId userId db
     = (Resolved (inr (mkError "Failed to add participant")), db)).
Proof.
  rewrite ChatServiceFacts.addParticipantToChat_cases.
  unfold castFindByIdAndUpdate, memFindByIdAndUpdate.
  destruct (validId chatId).
  - destruct db as [cs conn]. cbn [connected chats].
    destruct conn.
    + destruct (cs !! chatId) as [c|] eqn:Hc.
      * split; [|split; [reflexivity|split; [|split]]].
        -- intros other Hne. cbn [snd chats]. apply lookup_insert_ne. congruence.
        -- intros c0 _ [= <-] _. eexists. split; [reflexivity|].
           split; [reflexivity|]. split; [reflexivity|].
           simpl. unfold addToSet.
           destruct (bool_decide_reflect (userId ∈ participants c));
             split; intros; [reflexivity | contradiction
                            | contradiction | reflexivity].
        -- discriminate.
        -- discriminate.
      * split; [reflexivity|]. split; [reflexivity|].
        split; [discriminate|]. split; [reflexivity | discriminate].
    + split; [reflexivity|]. split; [reflexivity|].
      split; [intros; discriminate|]. split; intros; discriminate.
  - split; [reflexivity|]. split; [reflexivity|].
    split; [intros; discriminate|]. split; [intros; discriminate | reflexivity].
Qed.

Lemma addParticipantToChat_frame_witness :
  addParticipantToChat MemDb (castFindByIdAndUpdate isObjectId)
    "65f1c0a2b3d4e5f601234567" "carol" sampleDb
  = (Resolved (inr (mkError "Chat not found")), sampleDb).
Proof.
  apply (proj1 (proj2 (proj2 (proj2
           (addParticipantToChat_frame isObjectId "65f1c0a2b3d4e5f601234567"
              "carol" sampleDb)))));
    reflexivity.
Defined.

Example addParticipantToChat_bad_id :
  addParticipantToChat MemDb (castFindByIdAndUpdate isObjectId)
    "invalid-id" "carol" sampleDb
  = (Resolved (inr (mkError "Failed to add participant")), sampleDb).
Proof. reflexivity. Qed.

Example addParticipantToChat_appends_new :
  fst (addParticipantToChat MemDb (castFindByIdAndUpdate isObjectId)
         "65f1c0a2b3d4e5f601234567" "carol"
         (mkMemDb {[ "65f1c0a2b3d4e5f601234567"
                     := mkChat "65f1c0a2b3d4e5f601234567" ["alice"; "bob"] [] ]}
                  true))
  = Resolved (inl (mkChat "65f1c0a2b3d4e5f601234567" ["alice"; "bob"; "carol"] [])).
Proof. vm_compute. reflexivity. Qed.

Lemma addToSet_NoDup (x : string) (l : list string) :
  NoDup l -> NoDup (addToSet x l).
Proof.
  intros Hnd. unfold addToSet.
  destruct (bool_decide_reflect (x ∈ l)) as [Hin|Hnin]; [assumption|].
  apply NoDup_app. split; [assumption|]. split.
  - intros y Hy Hy'. apply list_elem_of_singleton in Hy'. congruence.
  - apply NoDup_singleton.
Qed.

Lemma addToSet_keeps (x y : string) (l : list string) :
  y ∈ l -> y ∈ addToSet x l.
Proof.
  intros Hin. unfold addToSet.
  destruct (bool_decide (x ∈ l)); [assumption|].
  apply elem_of_app. auto.
Qed.

(** One more participant, on a connected database that has the chat. *)
Lemma addParticipants_step (chatId userId : string) (cs : gmap string Chat)
    (c : Chat) :
  cs !! chatId = Some c ->
  snd (addParticipantToChat MemDb memFindByIdAndUpdate chatId userId
         (mkMemDb cs true))
  = mkMemDb (<[chatId := mkChat (chat_id c) (addToSet userId (participants c))
                                 (messages c)]> cs) true.
Proof.
  intros Hc. rewrite ChatServiceFacts.addParticipantToChat_mem.
  cbn [connected chats]. rewrite Hc. reflexivity.
Qed.

(** X9. However many users are added to a chat, in whatever order and
    however often, a participants list without duplicates stays without
    duplicates; everyone added is a participant afterwards, and nobody who
    was one is lost. *)
Theorem addParticipants_NoDup (chatId : string) (userIds : list string)
    (cs : gmap string Chat) (c : Chat) :
  cs !! chatId = Some c ->
  NoDup (participants c) ->
  exists c',
    chats (addParticipants chatId userIds (mkMemDb cs true)) !! chatId = Some c' /\
    NoDup (participants c') /\
    (forall u, u ∈ userIds -> u ∈ participants c') /\
    (forall u, u ∈ participants c -> u ∈ participants c') /\
    messages c' = messages c.
Proof.
  revert cs c. induction userIds as [|userId rest IH]; intros cs c Hc Hnd.
  - exists c. simpl. repeat split; auto. intros u Hu. inversion Hu.
  - change (addParticipants chatId (userId :: rest) (mkMemDb cs true))
      with (addParticipants chatId rest
              (snd (addParticipantToChat MemDb memFindByIdAndUpdate chatId userId
                      (mkMemDb cs true)))).
    rewrite (addParticipants_step chatId userId cs c Hc).
    set (c1 := mkChat (chat_id c) (addToSet userId (participants c)) (messages c)).
    destruct (IH (<[chatId := c1]> cs) c1) as (c' & Hc' & Hnd' & Hall & Hold & Hmsg).
    { apply lookup_insert_eq. }
    { simpl. apply addToSet_NoDup. assumption. }
    exists c'. split; [exact Hc'|]. split; [assumption|].
    split; [|split].
    + intros u Hu. apply elem_of_cons in Hu as [-> | Hu]; [|auto].
      apply Hold. simpl. apply ChatServiceFacts.addToSet_elem.
    + intros u Hu. apply Hold. simpl. apply addToSet_keeps. assumption.
    + rewrite Hmsg. reflexivity.
Qed.

Lemma addParticipants_NoDup_witness :
  exists c',
    chats (addParticipants "c1" ["carol"; "bob"; "carol"] sampleDb) !! "c1"
    = Some c' /\
    NoDup (participants c') /\
    (forall u, u ∈ ["carol"; "bob"; "carol"] -> u ∈ participants c') /\
    (forall u, u ∈ participants sampleChat -> u ∈ participants c') /\
    messages c' = messages sampleChat.
Proof.
  apply (addParticipants_NoDup "c1" ["carol"; "bob"; "carol"]
           {[ "c1" := sampleChat ]} sampleChat).
  - reflexivity.
  - simpl.
    repeat (apply NoDup_cons_2;
            [intros Hin%list_elem_of_In; simpl in Hin; intuition discriminate|]).
    apply NoDup_nil_2.
Defined.

Example addParticipants_sample :
  participantsOf (addParticipants "c1" ["carol"; "bob"; "carol"] sampleDb) "c1"
  = Some ["alice"; "bob"; "carol"].
Proof. vm_compute. reflexivity. Qed.

Lemma addMessages_step (chatId messageId : string) (cs : gmap string Chat)
    (c : Chat) :
  cs !! chatId = Some c ->
  snd (addMessageToChat MemDb memFindByIdAndUpdate chatId messageId
         (mkMemDb cs true))
  = mkMemDb (<[chatId := mkChat (chat_id c) (participants c)
                                 (messages c ++ [MessageRef messageId])%list]> cs) true.
Proof.
  intros Hc. rewrite addMessageToChat_mem.
  cbn [connected chats]. rewrite Hc. reflexivity.
Qed.

(** X10. [addMessageToChat] is not idempotent: every call appends. After a
    sequence of calls the chat's messages are the old ones followed by one
    entry per call, in call order and with repetitions kept, and the
    participants are untouched. *)
Theorem addMessages_appends (chatId : string) (messageIds : list string)
    (cs : gmap string Chat) (c : Chat) :
  cs !! chatId = Some c ->
  chats (addMessages chatId messageIds (mkMemDb cs true)) !! chatId
  = Some (mkChat (chat_id c) (participants c)
                 (messages c ++ (MessageRef <$> messageIds))%list).
Proof.
  revert cs c. induction messageIds as [|messageId rest IH]; intros cs c Hc.
  - simpl. rewrite app_nil_r. destruct c. exact Hc.
  - change (addMessages chatId (messageId :: rest) (mkMemDb cs true))
      with (addMessages chatId rest
              (snd (addMessageToChat MemDb memFindByIdAndUpdate chatId messageId
                      (mkMemDb cs true)))).
    rewrite (addMessages_step chatId messageId cs c Hc).
    rewrite (IH _ _ (lookup_insert_eq _ _ _)). simpl.
    rewrite <- app_assoc. reflexivity.
Qed.

Lemma addMessages_appends_witness :
  chats (addMessages "c1" ["m1"; "m1"] sampleDb) !! "c1"
  = Some (mkChat "c1" ["alice"; "bob"] [MessageRef "m1"; MessageRef "m1"]).
Proof.
  apply (addMessages_appends "c1" ["m1"; "m1"] {[ "c1" := sampleChat ]} sampleChat).
  reflexivity.
Defined.

End ChatStoreFacts.

(** ** Theorems about [saveChat] on a store with messages *)
Module SaveChatFacts.
Import ChatService ChatStore ChatController.

Section Store.

Variable objectId : nat -> string.
Variable validMessage : Message -> bool.
Variable validChat : list string -> list string -> bool.
Variable validId : string -> bool.

Local Abbreviation create := (mongoCreateMessage objectId validMessage).
Local Abbreviation save := (mongoSaveChat objectId validChat).

(** Creating messages that all pass validation: one document per message
    is appended, in order, each typed [direct]. *)
Lemma createMessages_all_valid (msgs : list Message) (db : Mongo) :
  Forall (fun m => validMessage (direct m) = true) msgs ->
  exists docs,
    createMessages Mongo create msgs db
    = (Resolved (message_id <$> docs),
       mkMongo (messageDocs db ++ docs) (chatDocs db)
               (nextId db + length msgs)) /\
    message_body <$> docs = direct <$> msgs.
Proof.
  revert db. induction msgs as [|m rest IH]; intros db Hall.
  - exists []. simpl. unfold ret. rewrite app_nil_r, Nat.add_0_r.
    destruct db; auto.
  - inversion Hall as [|? ? Hm Hrest]; subst.
    simpl. unfold bind at 1. unfold mongoCreateMessage at 1.
    fold (direct m). rewrite Hm.
    set (doc := mkMessageDoc (objectId (nextId db)) (direct m)).
    destruct (IH (mkMongo (messageDocs db ++ [doc]) (chatDocs db) (S (nextId db)))
                Hrest) as (docs & Hrun & Hbodies).
    exists (doc :: docs). split.
    + unfold bind. rewrite Hrun. unfold ret. simpl.
      rewrite <- app_assoc. simpl.
      replace (S (nextId db + length rest)) with (nextId db + S (length rest)) by lia.
      reflexivity.
    + rewrite !fmap_cons, Hbodies. reflexivity.
Qed.

(** Creation stops at the first message that fails validation: the
    documents of the messages before it are stored, nothing after it is
    attempted. *)
Lemma createMessages_stops (good rest : list Message) (bad : Message)
    (db : Mongo) :
  Forall (fun m => validMessage (direct m) = true) good ->
  validMessage (direct bad) = false ->
  exists docs,
    createMessages Mongo create (good ++ bad :: rest) db
    = (Rejected "ValidationError",
       mkMongo (messageDocs db ++ docs) (chatDocs db)
               (nextId db + length good)) /\
    message_body <$> docs = direct <$> good.
Proof.
  revert db. induction good as [|m good IH]; intros db Hall Hbad.
  - exists []. simpl. unfold bind. unfold mongoCreateMessage at 1.
    fold (direct bad). rewrite Hbad, app_nil_r, Nat.add_0_r.
    destruct db; auto.
  - inversion Hall as [|? ? Hm Hgood]; subst.
    simpl. unfold bind at 1. unfold mongoCreateMessage at 1.
    fold (direct m). rewrite Hm.
    set (doc := mkMessageDoc (objectId (nextId db)) (direct m)).
    destruct (IH (mkMongo (messageDocs db ++ [doc]) (chatDocs db) (S (nextId db)))
                Hgood Hbad) as (docs & Hrun & Hbodies).
    exists (doc :: docs). split.
    + unfold bind. rewrite Hrun. simpl.
      rewrite <- app_assoc. simpl.
      replace (S (nextId db + length good)) with (nextId db + S (length good)) by lia.
      reflexivity.
    + rewrite !fmap_cons, Hbodies. reflexivity.
Qed.

(** X11. When every message passes validation and the chat does too,
    [saveChat] answers with the stored chat: its participants are the
    payload's, as given; it refers to one new message document per payload
    message, in payload order; and each of those documents is the payload
    message with its type set to [direct], whatever type it came with. *)
Theorem saveChat_stores (chatPayload : CreateChatPayload) (db : Mongo) :
  Forall (fun m => validMessage (direct m) = true) (payload_messages chatPayload) ->
  (forall ids, validChat (payload_participants chatPayload) ids = true) ->
  exists c db' docs,
    saveChat Mongo create save chatPayload db = (Resolved (inl c), db') /\
    chatDocs db' !! chat_id c = Some c /\
    participants c = payload_participants chatPayload /\
    messages c = MessageRef <$> (message_id <$> docs) /\
    messageDocs db' = (messageDocs db ++ docs)%list /\
    message_body <$> docs = direct <$> payload_messages chatPayload /\
    Forall (fun d => msgType (message_body d) = Some "direct") docs.
Proof.
  intros Hall Hchat.
  destruct (createMessages_all_valid (payload_messages chatPayload) db Hall)
    as (docs & Hrun & Hbodies).
  unfold saveChat, tryCatch, bind at 1. rewrite Hrun.
  unfold bind, mongoSaveChat. rewrite Hchat. cbn [nextId chatDocs messageDocs].
  eexists _, _, docs. split; [reflexivity|].
  split; [cbn [chatDocs chat_id]; apply lookup_insert_eq|].
  split; [reflexivity|]. split; [reflexivity|]. split; [reflexivity|].
  split; [assumption|].
  apply Forall_forall. intros d Hd.
  assert (Hin : message_body d ∈ direct <$> payload_messages chatPayload).
  { rewrite <- Hbodies. apply list_elem_of_fmap. eauto. }
  apply list_elem_of_fmap in Hin as (m & -> & _). reflexivity.
Qed.

(** [saveChat] on a payload with a message that fails validation. *)
Lemma saveChat_on_invalid (participants : list string)
    (good rest : list Message) (bad : Message) (db : Mongo) :
  Forall (fun m => validMessage (direct m) = true) good ->
  validMessage (direct bad) = false ->
  exists docs,
    saveChat Mongo create save (mkPayload participants (good ++ bad :: rest)) db
    = (Resolved (inr (mkError "Failed to create chat")),
       mkMongo (messageDocs db ++ docs) (chatDocs db) (nextId db + length good)) /\
    message_body <$> docs = direct <$> good.
Proof.
  intros Hall Hbad.
  destruct (createMessages_stops good rest bad db Hall Hbad)
    as (docs & Hrun & Hbodies).
  unfold saveChat, tryCatch, bind. cbn [payload_messages]. rewrite Hrun.
  exists docs. split; [reflexivity | assumption].
Qed.

Lemma bodies_length (docs : list MessageDoc) (msgs : list Message) :
  message_body <$> docs = direct <$> msgs -> length docs = length msgs.
Proof.
  intros H. rewrite <- (length_fmap message_body), H, length_fmap. reflexivity.
Qed.

(** X12. [saveChat] does not roll back. When a message fails validation
    the answer is the error "Failed to create chat" and no chat is stored,
    but the documents of the messages before the failing one stay in the
    messages collection; the messages after it are never created. *)
Theorem saveChat_no_rollback (participants : list string)
    (good rest : list Message) (bad : Message) (db : Mongo) :
  Forall (fun m => validMessage (direct m) = true) good ->
  validMessage (direct bad) = false ->
  exists db' docs,
    saveChat Mongo create save (mkPayload participants (good ++ bad :: rest)) db
    = (Resolved (inr (mkError "Failed to create chat")), db') /\
    chatDocs db' = chatDocs db /\
    messageDocs db' = (messageDocs db ++ docs)%list /\
    message_body <$> docs = direct <$> good /\
    length docs = length good.
Proof.
  intros Hall Hbad.
  destruct (saveChat_on_invalid participants good rest bad db Hall Hbad)
    as (docs & Hrun & Hbodies).
  eexists _, docs. split; [exact Hrun|].
  repeat split; auto. apply bodies_length. assumption.
Qed.

Section Route.

Variable populateDocument : string -> string -> M Mongo ChatResponse.
Variable asPayload : JsValue -> CreateChatPayload.
Variable asMessage : JsValue -> Message.


(** X27. A message for a chat that cannot be found is stored all the
    same. When the body is valid and the schema accepts the message,
    [addMessageToChatRoute] first creates the message document; if the
    chat id has the right format but no chat has it, the answer is status
    500 with "Chat not found", and if the id has the wrong format, status
    500 with "Failed to add message to chat". In both cases nothing is
    emitted and the new message document stays in the messages
    collection, referred to by no chat. *)
Theorem addMessageToChatRoute_unknown_chat (chatId : string) (body : JsValue)
    (db : Mongo) :
  isAddMessageRequestValid body = Resolved true ->
  validMessage (direct (asMessage body)) = true ->
  objectId (nextId db) <> "" ->
  (validId chatId = true -> chatDocs db !! chatId = None ->
     addMessageToChatRoute Mongo create (mongoFindByIdAndUpdate validId)
       populateDocument asMessage chatId body db
     = (Resolved [Respond 500 (ErrorBody "Chat not found")],
        mkMongo (messageDocs db
                   ++ [mkMessageDoc (objectId (nextId db))
                         (direct (asMessage body))])
                (chatDocs db) (S (nextId db)))) /\
  (validId chatId = false ->
     addMessageToChatRoute Mongo create (mongoFindByIdAndUpdate validId)
       populateDocument asMessage chatId body db
     = (Resolved [Respond 500 (ErrorBody "Failed to add message to chat")],
        mkMongo (messageDocs db
                   ++ [mkMessageDoc (objectId (nextId db))
                         (direct (asMessage body))])
                (chatDocs db) (S (nextId db)))).
Proof.
  intros Hvalid Hschema Hid.
  unfold addMessageToChatRoute, tryCatch, bind at 1. rewrite Hvalid.
  unfold createMessage, tryCatch, bind, mongoCreateMessage.
  fold (direct (asMessage body)). rewrite Hschema.
  cbn [ChatService.ret message_id].
  destruct (bool_decide_reflect (objectId (nextId db) = "")); [contradiction|].
  unfold addMessageToChat, tryCatch, bind, mongoFindByIdAndUpdate.
  cbn [chatDocs]. split.
  - intros Hcast Hnone. rewrite Hcast, Hnone. reflexivity.
  - intros Hcast. rewrite Hcast. reflexivity.
Qed.

End Route.

End Store.

Lemma saveChat_stores_witness :
  exists c db' docs,
    saveChat Mongo (mongoCreateMessage unaryId nonEmptyText)
      (mongoSaveChat unaryId (fun _ _ => true))
      (mkPayload ["alice"; "bob"] [mkMessage "hi" "alice" "2025-03-01" None])
      emptyMongo
    = (Resolved (inl c), db') /\
    chatDocs db' !! chat_id c = Some c /\
    participants c = ["alice"; "bob"] /\
    messages c = MessageRef <$> (message_id <$> docs) /\
    messageDocs db' = (messageDocs emptyMongo ++ docs)%list /\
    message_body <$> docs
    = direct <$> [mkMessage "hi" "alice" "2025-03-01" None] /\
    Forall (fun d => msgType (message_body d) = Some "direct") docs.
Proof.
  apply (saveChat_stores unaryId nonEmptyText (fun _ _ => true)
           (mkPayload ["alice"; "bob"] [mkMessage "hi" "alice" "2025-03-01" None])
           emptyMongo).
  - repeat constructor.
  - reflexivity.
Defined.

Lemma saveChat_no_rollback_witness :
  exists db' docs,
    saveChat Mongo (mongoCreateMessage unaryId nonEmptyText)
      (mongoSaveChat unaryId (fun _ _ => true))
      (mkPayload ["alice"; "bob"]
         ([mkMessage "hi" "alice" "2025-03-01" None]
          ++ mkMessage "" "bob" "2025-03-01" None :: [])%list)
      emptyMongo
    = (Resolved (inr (mkError "Failed to create chat")), db') /\
    chatDocs db' = chatDocs emptyMongo /\
    messageDocs db' = (messageDocs emptyMongo ++ docs)%list /\
    message_body <$> docs
    = direct <$> [mkMessage "hi" "alice" "2025-03-01" None] /\
    length docs = 1.
Proof.
  apply (saveChat_no_rollback unaryId nonEmptyText (fun _ _ => true)
           ["alice"; "bob"] [mkMessage "hi" "alice" "2025-03-01" None] []
           (mkMessage "" "bob" "2025-03-01" None) emptyMongo).
  - repeat constructor.
  - reflexivity.
Defined.


Example createChatRoute_second_empty :
  createChatRoute Mongo (mongoCreateMessage unaryId nonEmptyText)
    (mongoSaveChat unaryId (fun _ _ => true))
    (fun _ _ => ret (inr (mkError "Chat not found")))
    readPayload secondEmptyBody emptyMongo
  = (Resolved [Respond 500 (ErrorBody "Failed to create chat")],
     mkMongo [mkMessageDoc "id" (mkMessage "hi" "alice" "2025-03-01" (Some "direct"))]
             ∅ 1).
Proof. reflexivity. Qed.

Lemma addMessageToChatRoute_unknown_chat_witness :
  addMessageToChatRoute Mongo (mongoCreateMessage unaryId nonEmptyText)
    (mongoFindByIdAndUpdate isObjectId)
    (fun _ _ => ret (inr (mkError "Chat not found")))
    (readNewMessage "2025-03-02") "65f1c0a2b3d4e5f601234567" hiBody emptyMongo
  = (Resolved [Respond 500 (ErrorBody "Chat not found")],
     mkMongo [mkMessageDoc "id" (mkMessage "hi" "alice" "2025-03-02" (Some "direct"))]
             ∅ 1).
Proof.
  apply (proj1 (addMessageToChatRoute_unknown_chat unaryId nonEmptyText isObjectId
                  (fun _ _ => ret (inr (mkError "Chat not found")))
                  (readNewMessage "2025-03-02") "65f1c0a2b3d4e5f601234567"
                  hiBody emptyMongo eq_refl eq_refl ltac:(discriminate)));
    reflexivity.
Defined.

Example addMessageToChatRoute_bad_id :
  addMessageToChatRoute Mongo (mongoCreateMessage unaryId nonEmptyText)
    (mongoFindByIdAndUpdate isObjectId)
    (fun _ _ => ret (inr (mkError "Chat not found")))
    (readNewMessage "2025-03-02") "invalid-id" hiBody emptyMongo
  = (Resolved [Respond 500 (ErrorBody "Failed to add message to chat")],
     mkMongo [mkMessageDoc "id" (mkMessage "hi" "alice" "2025-03-02" (Some "direct"))]
             ∅ 1).
Proof. reflexivity. Qed.

End SaveChatFacts.

(** ** Theorems about the chat controller: validation *)
Module ChatValidationFacts.
Import ChatService ChatController.

Lemma every_true (p : JsValue -> Outcome bool) (items : list JsValue) :
  every p items = Resolved true <-> Forall (fun x => p x = Resolved true) items.
Proof.
  induction items as [|x rest IH]; simpl.
  - split; [constructor | reflexivity].
  - destruct (p x) as [[|]|err] eqn:Hx.
    + rewrite IH. split.
      * intros Hrest. constructor; assumption.
      * intros Hall. inversion Hall; assumption.
    + split; [discriminate|]. intros Hall. inversion Hall; congruence.
    + split; [discriminate|]. intros Hall. inversion Hall; congruence.
Qed.

Lemma forallb_isString (items : list JsValue) :
  forallb isString items = true <-> exists ps, items = JString <$> ps.
Proof.
  induction items as [|x rest IH]; simpl.
  - split; [exists []; reflexivity | reflexivity].
  - rewrite andb_true_iff, IH. split.
    + intros [Hx [ps ->]]. destruct x; try discriminate.
      exists (s :: ps). reflexivity.
    + intros [[|p ps] Heq]; [discriminate|].
      injection Heq as -> ->. split; [reflexivity | eauto].
Qed.

Lemma messageShape_true (m : JsValue) :
  messageShape m = Resolved true <-> messageOk m.
Proof.
  unfold messageShape, messageOk. split.
  - destruct m as [| |b|n|s|items|fields]; simpl; try discriminate.
    destruct (fieldOf "msg" fields) as [| |b|n|text|items|fs]; simpl;
      try discriminate.
    destruct (fieldOf "msgFrom" fields) as [| |b|n|sender|items|fs]; simpl;
      try discriminate.
    destruct (fieldOf "msgDateTime" fields) as [| |b|n|date|items|fs]; simpl;
      try discriminate; intros _; exists text, sender; eauto 6.
  - intros (text & sender & Hmsg & Hfrom & Hdate).
    rewrite Hmsg. simpl. rewrite Hfrom. simpl.
    destruct Hdate as [-> | [date ->]]; reflexivity.
Qed.

(** X13. [isCreateChatRequestValid] accepts a body exactly when its
    [participants] is an array of strings and its [messages] is an array
    of values that each have a string [msg], a string [msgFrom] and a
    [msgDateTime] that is a string or missing. Nothing else is asked: both
    arrays may be empty, and participants may repeat. *)
Theorem isCreateChatRequestValid_accepts (body : JsValue) :
  isCreateChatRequestValid body = Resolved true <->
  exists ps ms,
    getProp body "participants" = Resolved (JArray (JString <$> ps)) /\
    getProp body "messages" = Resolved (JArray ms) /\
    Forall messageOk ms.
Proof.
  unfold isCreateChatRequestValid. split.
  - destruct (getProp body "participants") as [participants|err]; simpl;
      [|discriminate].
    destruct (getProp body "messages") as [messages|err]; simpl; [|discriminate].
    destruct participants as [| |b|n|s|ps|fs]; try discriminate.
    destruct (forallb isString ps) eqn:Hps; [|discriminate].
    destruct messages as [| |b|n|s|ms|fs]; try discriminate.
    intros Hms. apply forallb_isString in Hps as [names ->].
    exists names, ms. split; [reflexivity|]. split; [reflexivity|].
    apply every_true in Hms.
    eapply Forall_impl; [exact Hms|]. intros m. apply messageShape_true.
  - intros (ps & ms & -> & -> & Hms). simpl.
    rewrite (proj2 (forallb_isString (JString <$> ps))) by eauto.
    apply every_true.
    eapply Forall_impl; [exact Hms|]. intros m. apply messageShape_true.
Qed.

Lemma isCreateChatRequestValid_accepts_witness :
  isCreateChatRequestValid emptyChatBody = Resolved true.
Proof.
  apply (proj2 (isCreateChatRequestValid_accepts emptyChatBody)).
  exists [], []. repeat split. constructor.
Defined.

Lemma every_throws (p : JsValue -> Outcome bool) (good rest : list JsValue)
    (hole : JsValue) (err : string) :
  Forall (fun x => p x = Resolved true) good ->
  p hole = Rejected err ->
  every p (good ++ hole :: rest) = Rejected err.
Proof.
  intros Hgood Hhole. induction Hgood as [|x good Hx _ IH]; simpl.
  - rewrite Hhole. reflexivity.
  - rewrite Hx. exact IH.
Qed.

Lemma every_rejected (p : JsValue -> Outcome bool) (items : list JsValue)
    (err : string) :
  every p items = Rejected err -> exists x, x ∈ items /\ p x = Rejected err.
Proof.
  induction items as [|x rest IH]; simpl; [discriminate|].
  destruct (p x) as [[|]|e] eqn:Hx.
  - intros H. destruct (IH H) as (y & Hy & Hpy).
    exists y. split; [apply elem_of_cons; auto | assumption].
  - discriminate.
  - intros [= <-]. exists x. split; [apply elem_of_cons; auto | assumption].
Qed.

Lemma messageShape_rejected (m : JsValue) (err : string) :
  messageShape m = Rejected err -> m = JNull \/ m = JUndefined.
Proof.
  unfold messageShape.
  destruct m as [| |b|n|s|items|fields]; simpl; auto; try discriminate.
  destruct (isString (fieldOf "msg" fields)); simpl; [|discriminate].
  destruct (isString (fieldOf "msgFrom" fields)); simpl; discriminate.
Qed.

(** X14. [isCreateChatRequestValid] can throw instead of answering: a
    [null] or missing entry in [messages], after entries that are fine,
    makes the check throw a [TypeError] rather than return [false]. The
    only ways for it to throw are a [null] or missing body and such an
    entry in the [messages] array. *)
Theorem isCreateChatRequestValid_throws (body : JsValue) :
  (forall ps good rest hole,
     hole = JNull \/ hole = JUndefined ->
     getProp body "participants" = Resolved (JArray (JString <$> ps)) ->
     getProp body "messages" = Resolved (JArray (good ++ hole :: rest)%list) ->
     Forall messageOk good ->
     isCreateChatRequestValid body = Rejected "TypeError") /\
  (forall err,
     isCreateChatRequestValid body = Rejected err ->
     body = JNull \/ body = JUndefined \/
     exists ms hole,
       getProp body "messages" = Resolved (JArray ms) /\
       hole ∈ ms /\ (hole = JNull \/ hole = JUndefined)).
Proof.
  split.
  - intros ps good rest hole Hhole Hps Hms Hgood.
    unfold isCreateChatRequestValid. rewrite Hps, Hms. simpl.
    rewrite (proj2 (forallb_isString (JString <$> ps))) by eauto.
    apply every_throws.
    + eapply Forall_impl; [exact Hgood|]. intros m. apply messageShape_true.
    + destruct Hhole as [-> | ->]; reflexivity.
  - intros err. unfold isCreateChatRequestValid.
    destruct body as [| |b|n|s|items|fields]; simpl; auto; try discriminate;
      try (destruct (forallb isString _); discriminate).
    destruct (fieldOf "participants" fields) as [| |b|n|s|ps|fs];
      try discriminate.
    destruct (forallb isString ps); [|discriminate].
    destruct (fieldOf "messages" fields) as [| |b|n|s|ms|fs] eqn:Hms;
      try discriminate.
    intros Hev. apply every_rejected in Hev as (hole & Hin & Hhole).
    apply messageShape_rejected in Hhole.
    right. right. exists ms, hole. auto.
Qed.

Lemma isCreateChatRequestValid_throws_witness :
  isCreateChatRequestValid holedChatBody = Rejected "TypeError".
Proof.
  apply (proj1 (isCreateChatRequestValid_throws holedChatBody)
           ["alice"] [] [] JNull).
  - auto.
  - reflexivity.
  - reflexivity.
  - constructor.
Defined.

Example isCreateChatRequestValid_number_entry :
  isCreateChatRequestValid
    (JObject [("participants", JArray [JString "alice"]);
              ("messages", JArray [JNumber 5; JNull])])
  = Resolved false.
Proof. reflexivity. Qed.

End ChatValidationFacts.

(** ** Theorems about the chat controller: routes *)
Module ChatRoutesFacts.
Import ChatService ChatController.

(** Splits a route into its paths: every outcome of a validation, of a
    database operation and of [populateDocument]. *)
Ltac route_paths :=
  repeat match goal with
         | |- context [match ?x with _ => _ end] =>
             lazymatch x with
             | context [match _ with _ => _ end] => fail
             | _ => destruct x eqn:?
             end
         | |- context [if ?x then _ else _] =>
             lazymatch x with
             | context [match _ with _ => _ end] => fail
             | context [if _ then _ else _] => fail
             | _ => destruct x eqn:?
             end
         end.

Section Routes.

Context {Db : Type}.
Variable MessageModel_create : Message -> M Db MessageDoc.
Variable ChatModel_save : list string -> list string -> M Db Chat.
Variable ChatModel_findByIdAndUpdate : string -> Update -> M Db (option Chat).
Variable ChatModel_find_all_populate : list string -> M Db (list Chat).
Variable populateDocument : string -> string -> M Db ChatResponse.
Variable asPayload : JsValue -> CreateChatPayload.
Variable asMessage : JsValue -> Message.



(** X17. A body on which a validation throws never reaches the database
    and is answered with status 500, not 400: each of the three validating
    routes then leaves the database as it was, emits nothing and sends its
    own "Failed to ..." message. *)
Theorem validation_throw_is_500 (chatId : string) (body : JsValue) (db : Db)
    (err : string) :
  (isCreateChatRequestValid body = Rejected err ->
     createChatRoute Db MessageModel_create ChatModel_save populateDocument
       asPayload body db
     = (Resolved [Respond 500 (ErrorBody "Failed to create chat")], db)) /\
  (isAddMessageRequestValid body = Rejected err ->
     addMessageToChatRoute Db MessageModel_create ChatModel_findByIdAndUpdate
       populateDocument asMessage chatId body db
     = (Resolved [Respond 500 (ErrorBody "Failed to add message to chat")], db)) /\
  (isAddParticipantRequestValid body = Rejected err ->
     addParticipantToChatRoute Db ChatModel_findByIdAndUpdate populateDocument
       chatId body db
     = (Resolved [Respond 500 (ErrorBody "Failed to add participant")], db)).
Proof.
  unfold createChatRoute, addMessageToChatRoute, addParticipantToChatRoute.
  repeat split; intros ->; reflexivity.
Qed.

(** X18. [getChatRoute], [getChatsByUserRoute] and
    [addParticipantToChatRoute] end without throwing and never emit a
    socket event: their one effect is the response. In particular nobody
    is told that a participant was added. *)
Theorem quiet_routes (chatId username : string) (body : JsValue) (db : Db) :
  (exists statusCode answer db',
     getChatRoute Db populateDocument chatId db
     = (Resolved [Respond statusCode answer], db')) /\
  (exists statusCode answer db',
     getChatsByUserRoute Db ChatModel_find_all_populate populateDocument
       username db
     = (Resolved [Respond statusCode answer], db')) /\
  (exists statusCode answer db',
     addParticipantToChatRoute Db ChatModel_findByIdAndUpdate populateDocument
       chatId body db
     = (Resolved [Respond statusCode answer], db')).
Proof.
  split; [|split].
  - unfold getChatRoute, tryCatch, bind, respond, ret.
    route_paths; eexists _, _, _; reflexivity.
  - unfold getChatsByUserRoute, tryCatch, bind, respond, ret.
    route_paths; eexists _, _, _; reflexivity.
  - unfold addParticipantToChatRoute, tryCatch, bind, respond, ret, throw.
    route_paths; eexists _, _, _; reflexivity.
Qed.

Lemma validChats_length (populated : list ChatResponse) :
  length (validChats populated) <= length populated.
Proof.
  induction populated as [|[c|e] rest IH]; simpl; lia.
Qed.

Lemma validChats_sound (populated : list ChatResponse) (c : Chat) :
  c ∈ validChats populated <-> inl c ∈ populated.
Proof.
  induction populated as [|[c'|e] rest IH]; simpl.
  - split; inversion 1.
  - rewrite !elem_of_cons, IH. split; intros [H | H]; auto; left; congruence.
  - rewrite elem_of_cons, IH. split; [auto|]. intros [H | H]; [discriminate|auto].
Qed.

(** [Promise.all] answers with one result per computation. *)
Lemma promiseAll_length {A : Type} (ms : list (M Db A)) (db db' : Db)
    (results : list A) :
  promiseAll Db ms db = (Resolved results, db') ->
  length results = length ms.
Proof.
  revert db db' results. induction ms as [|m rest IH]; intros db db' results.
  - simpl. intros [= <- <-]. reflexivity.
  - simpl. destruct (m db) as [first db1].
    destruct (promiseAll Db rest db1) as [others db2] eqn:Hrest.
    destruct first as [a|err]; [|discriminate].
    destruct others as [l|err]; [|discriminate].
    intros [= <- <-]. simpl. rewrite (IH _ _ _ Hrest). reflexivity.
Qed.

(** X19. Listing a user's chats hides failures. When the query for the
    chats fails, [getChatsByUserRoute] answers with status 200 and an
    empty list. When it succeeds and no [populateDocument] throws, the
    answer is status 200 with the chats that could be populated: those for
    which [populateDocument] answered with an error are left out without
    notice, so the list may be shorter than what the query found. *)
Theorem getChatsByUserRoute_hides_failures (username : string) (db : Db) :
  (forall err db1,
     ChatModel_find_all_populate [username] db = (Rejected err, db1) ->
     getChatsByUserRoute Db ChatModel_find_all_populate populateDocument
       username db
     = (Resolved [Respond 200 (ChatsBody [])], db1)) /\
  (forall rawChats db1 populated db2,
     ChatModel_find_all_populate [username] db = (Resolved rawChats, db1) ->
     promiseAll Db
       (map (fun chat => populateDocument (chat_id chat) "chat") rawChats) db1
     = (Resolved populated, db2) ->
     getChatsByUserRoute Db ChatModel_find_all_populate populateDocument
       username db
     = (Resolved [Respond 200 (ChatsBody (validChats populated))], db2) /\
     length (validChats populated) <= length rawChats /\
     (forall c, c ∈ validChats populated <-> inl c ∈ populated)).
Proof.
  split.
  - intros err db1 Hfind.
    unfold getChatsByUserRoute, getChatsByParticipants, tryCatch, bind.
    rewrite Hfind. reflexivity.
  - intros rawChats db1 populated db2 Hfind Hall.
    split; [|split].
    + unfold getChatsByUserRoute, getChatsByParticipants, tryCatch, bind.
      rewrite Hfind. unfold ret at 1 2. rewrite Hall. reflexivity.
    + pose proof (promiseAll_length _ _ _ _ Hall) as Hlen.
      rewrite length_map in Hlen.
      pose proof (validChats_length populated). lia.
    + apply validChats_sound.
Qed.

End Routes.

Lemma validation_throw_is_500_witness :
  createChatRoute MemDb (fun _ => unreachable) (fun _ _ => unreachable)
    samplePopulate (fun _ => mkPayload [] []) holedChatBody sampleDb
  = (Resolved [Respond 500 (ErrorBody "Failed to create chat")], sampleDb).
Proof.
  apply (proj1 (validation_throw_is_500 (Db := MemDb)
                  (fun _ => unreachable) (fun _ _ => unreachable)
                  (fun _ _ => unreachable) samplePopulate
                  (fun _ => mkPayload [] []) (fun _ => mkMessage "" "" "" None)
                  "c1" holedChatBody sampleDb "TypeError")).
  reflexivity.
Defined.

Lemma getChatsByUserRoute_hides_failures_witness :
  getChatsByUserRoute MemDb (fun _ => unreachable) samplePopulate "alice" sampleDb
  = (Resolved [Respond 200 (ChatsBody [])], sampleDb).
Proof.
  apply (proj1 (getChatsByUserRoute_hides_failures (Db := MemDb)
                  (fun _ => unreachable) samplePopulate "alice" sampleDb)
           "database error" sampleDb).
  reflexivity.
Defined.

Example getChatRoute_unknown_chat :
  getChatRoute MemDb samplePopulate "c9" sampleDb
  = (Resolved [Respond 404 (ErrorBody "Chat not found")], sampleDb).
Proof. vm_compute. reflexivity. Qed.

Example addParticipantToChatRoute_sample :
  fst (addParticipantToChatRoute MemDb memFindByIdAndUpdate samplePopulate "c1"
         (JObject [("userId", JString "carol")]) sampleDb)
  = Resolved [Respond 200 (ChatBody (mkChat "c1" ["alice"; "bob"; "carol"] []))].
Proof. vm_compute. reflexivity. Qed.

End ChatRoutesFacts.

(** ** Theorems about the direct message hook *)
Module DirectMessageFacts.
Import ChatService DirectMessage.

(** X20. What a [chatUpdate] does to the hook. A [created] update appends
    the chat to the list, whoever its participants are, and leaves the
    selection. A [newMessage] update never touches the list; it replaces
    the selected chat when that has the same id and does nothing
    otherwise. Any other type makes the listener throw and changes
    nothing. *)
Theorem handleChatUpdate_cases (type : string) (c : ClientChat) (st : DmState) :
  (type = "created" ->
     snd (handleChatUpdate type c) = None /\
     chats (runDm st (fst (handleChatUpdate type c))) = (chats st ++ [c])%list /\
     selectedChat (runDm st (fst (handleChatUpdate type c))) = selectedChat st) /\
  (type = "newMessage" ->
     snd (handleChatUpdate type c) = None /\
     chats (runDm st (fst (handleChatUpdate type c))) = chats st /\
     (forall p, selectedChat st = Some p -> _id p = _id c ->
        selectedChat (runDm st (fst (handleChatUpdate type c))) = Some c) /\
     ((forall p, selectedChat st = Some p -> _id p <> _id c) ->
        runDm st (fst (handleChatUpdate type c)) = st)) /\
  (type <> "created" -> type <> "newMessage" ->
     handleChatUpdate type c = ([], Some ("Unknown chatUpdate type: " ++ type))).
Proof.
  unfold handleChatUpdate. split; [|split].
  - intros ->. simpl. auto.
  - intros ->. simpl. split; [reflexivity|]. split; [reflexivity|]. split.
    + intros p Hp Hid. rewrite Hp. simpl.
      destruct (bool_decide_reflect (_id p = _id c)); [reflexivity|contradiction].
    + intros Hdiff. destruct st as [panel toCreate [p|] list text]; simpl in *;
        [|reflexivity].
      destruct (bool_decide_reflect (_id p = _id c)) as [Heq|Hne];
        [|reflexivity].
      exfalso. exact (Hdiff p eq_refl Heq).
  - intros Hc Hn.
    destruct (bool_decide_reflect (type = "created")); [contradiction|].
    destruct (bool_decide_reflect (type = "newMessage")); [contradiction|].
    reflexivity.
Qed.

Lemma handleChatUpdate_cases_witness :
  chats (runDm sampleDm
           (fst (handleChatUpdate "created"
                   (mkClientChat (Some "c2") (mkChat "c2" ["carol"; "dave"] [])))))
  = [sampleClientChat; mkClientChat (Some "c2") (mkChat "c2" ["carol"; "dave"] [])].
Proof.
  apply (proj1 (handleChatUpdate_cases "created"
                  (mkClientChat (Some "c2") (mkChat "c2" ["carol"; "dave"] []))
                  sampleDm)).
  reflexivity.
Defined.

(** X21. [handleSendMessage] sends a request exactly when a chat is
    selected and the message is not blank after trimming; the text sent is
    the untrimmed one. The selection and the message box change only when
    the request resolved with a chat: then that chat is selected and the
    box is emptied. After an error answer or a rejected request the state
    is what it was. *)
Theorem handleSendMessage_guard (trim : string -> string) (st : DmState)
    (username : string) (res : Outcome (ClientChat + ErrorObject)) :
  ((exists a, In a (fst (handleSendMessage trim st username res)) /\
              isRequest a = true)
   <-> is_Some (selectedChat st) /\ trim (newMessage st) <> "") /\
  (forall a, In a (fst (handleSendMessage trim st username res)) ->
     isRequest a = true ->
     exists selected,
       selectedChat st = Some selected /\
       a = CallSendMessage (newMessage st) username (_id selected)) /\
  (forall updatedChat, res = Resolved (inl updatedChat) ->
     is_Some (selectedChat st) -> trim (newMessage st) <> "" ->
     selectedChat (runDm st (fst (handleSendMessage trim st username res)))
     = Some updatedChat /\
     newMessage (runDm st (fst (handleSendMessage trim st username res))) = "") /\
  ((forall updatedChat, res <> Resolved (inl updatedChat)) ->
     runDm st (fst (handleSendMessage trim st username res)) = st).
Proof.
  unfold handleSendMessage.
  destruct (selectedChat st) as [selected|] eqn:Hsel.
  - destruct (bool_decide_reflect (trim (newMessage st) = "")) as [Hblank|Hfull].
    + simpl. split; [|split; [|split]].
      * split; [intros (a & [] & _) | intros [_ H]; contradiction].
      * intros a [].
      * intros updatedChat _ _ H. contradiction.
      * reflexivity.
    + split; [|split; [|split]].
      * split; [eauto|]. intros _.
        exists (CallSendMessage (newMessage st) username (_id selected)).
        split; [|reflexivity].
        destruct res as [[updatedChat|e]|err]; simpl; auto.
      * intros a Ha Hreq. exists selected. split; [reflexivity|].
        destruct res as [[updatedChat|e]|err]; simpl in Ha;
          repeat (destruct Ha as [<- | Ha]; [first [reflexivity | discriminate]|]);
          contradiction.
      * intros updatedChat -> _ _. simpl. auto.
      * intros Hnot. destruct res as [[updatedChat|e]|err]; simpl;
          [exfalso; exact (Hnot updatedChat eq_refl) | reflexivity | reflexivity].
  - simpl. split; [|split; [|split]].
    + split; [intros (a & [] & _) | intros [[x Hx] _]; discriminate].
    + intros a [].
    + intros updatedChat _ [x Hx]. discriminate.
    + reflexivity.
Qed.

Lemma handleSendMessage_guard_witness :
  runDm (mkDm false "" (Some sampleClientChat) [sampleClientChat] "   ")
    (fst (handleSendMessage asciiTrim
            (mkDm false "" (Some sampleClientChat) [sampleClientChat] "   ")
            "alice" (Rejected "500")))
  = mkDm false "" (Some sampleClientChat) [sampleClientChat] "   ".
Proof.
  apply (proj2 (proj2 (proj2 (handleSendMessage_guard asciiTrim
           (mkDm false "" (Some sampleClientChat) [sampleClientChat] "   ")
           "alice" (Rejected "500"))))).
  intros updatedChat. discriminate.
Defined.

Example handleSendMessage_blank :
  handleSendMessage asciiTrim
    (mkDm false "" (Some sampleClientChat) [sampleClientChat] "   ")
    "alice" (Resolved (inl sampleClientChat))
  = ([], None).
Proof. reflexivity. Qed.

Example handleSendMessage_sample :
  fst (handleSendMessage asciiTrim sampleDm "alice" (Resolved (inl sampleClientChat)))
  = [CallSendMessage "hello" "alice" (Some "c1");
     SetSelectedChat sampleClientChat; SetNewMessage ""].
Proof. reflexivity. Qed.

End DirectMessageFacts.

(** ** Theorems about the profile settings hook *)
Module ProfileSettingsFacts.
Import ProfileSettings.

Section Hook.

Context {User : Type}.

Lemma truthy_name (name : string) :
  GamePageHook.truthy (Some name) = true <-> name <> "".
Proof.
  simpl. destruct (bool_decide_reflect (name = "")); simpl;
    split; intros; congruence.
Qed.

(** X23. [handleResetPassword] sends the reset request exactly when the
    route has a non-empty username and the two password fields are
    non-empty and equal; the request carries that username and the new
    password. With an empty field the only effect is the error "Password
    fields cannot be empty", also when the fields differ; and without a
    username nothing happens at all, not even a message. *)
Theorem handleResetPassword_guard (st : ProfileState User)
    (username : option string) (res : Outcome unit) :
  ((exists a, In a (handleResetPassword User st username res) /\
              isResetRequest User a = true)
   <-> exists name,
         username = Some name /\ name <> "" /\
         newPassword User st <> "" /\
         newPassword User st = confirmNewPassword User st) /\
  (forall a, In a (handleResetPassword User st username res) ->
     isResetRequest User a = true ->
     exists name,
       username = Some name /\ a = CallResetPassword name (newPassword User st)) /\
  (forall name, username = Some name -> name <> "" ->
     newPassword User st = "" \/ confirmNewPassword User st = "" ->
     handleResetPassword User st username res
     = [SetErrorMessage (Some "Password fields cannot be empty")]) /\
  (username = None \/ username = Some "" ->
     handleResetPassword User st username res = []).
Proof.
  unfold handleResetPassword, validatePasswords.
  destruct username as [name|].
  - destruct (GamePageHook.truthy (Some name)) eqn:Ht.
    + apply truthy_name in Ht.
      destruct (bool_decide_reflect (newPassword User st = "")) as [Hn|Hn];
        [|destruct (bool_decide_reflect (confirmNewPassword User st = ""))
            as [Hc|Hc];
          [|destruct (bool_decide_reflect
                        (newPassword User st = confirmNewPassword User st))
              as [He|He]]]; simpl.
      * split; [|split; [|split]].
        -- split; [intros (a & [<- | []] & Ha); discriminate|].
           intros (n & _ & _ & H & _). contradiction.
        -- intros a [<- | []] Ha. discriminate.
        -- reflexivity.
        -- intros [H | H]; [discriminate | congruence].
      * split; [|split; [|split]].
        -- split; [intros (a & [<- | []] & Ha); discriminate|].
           intros (n & _ & _ & _ & H). congruence.
        -- intros a [<- | []] Ha. discriminate.
        -- reflexivity.
        -- intros [H | H]; [discriminate | congruence].
      * split; [|split; [|split]].
        -- split; [intros _; exists name; auto|]. intros _.
           exists (CallResetPassword name (newPassword User st)).
           split; [left|]; reflexivity.
        -- intros a Ha Hreq. exists name. split; [reflexivity|].
           destruct res as [u|err]; simpl in Ha;
             repeat (destruct Ha as [<- | Ha];
                     [first [reflexivity | discriminate]|]);
             contradiction.
        -- intros n _ _ [H | H]; contradiction.
        -- intros [H | H]; [discriminate | congruence].
      * split; [|split; [|split]].
        -- split; [intros (a & [<- | []] & Ha); discriminate|].
           intros (n & _ & _ & _ & H). contradiction.
        -- intros a [<- | []] Ha. discriminate.
        -- intros n _ _ [H | H]; contradiction.
        -- intros [H | H]; [discriminate | congruence].
    + assert (name = "") as ->.
      { destruct (decide (name = "")) as [|Hne]; [assumption|].
        apply truthy_name in Hne. congruence. }
      split; [|split; [|split]].
      * split; [intros (a & [] & _)|]. intros (n & [= <-] & H & _). contradiction.
      * intros a [].
      * intros n [= <-] H. contradiction.
      * reflexivity.
  - split; [|split; [|split]].
    + split; [intros (a & [] & _)|]. intros (n & H & _). discriminate.
    + intros a [].
    + intros n H. discriminate.
    + reflexivity.
Qed.

(** X24. Messages go stale. A failed password reset, a failed biography
    update and a failed profile fetch leave the success message of an
    earlier action as it was, and a successful profile fetch leaves an
    earlier error message as it was. Whatever the outcome, a profile
    fetch for a non-empty username ends with [loading] false. *)
Theorem messages_go_stale (st : ProfileState User) (username : option string)
    (err : string) :
  successMessage User
    (runProfile User st (handleResetPassword User st username (Rejected err)))
  = successMessage User st /\
  successMessage User
    (runProfile User st (handleUpdateBiography User st username (Rejected err)))
  = successMessage User st /\
  successMessage User
    (runProfile User st (fetchUserData User username (Rejected err)))
  = successMessage User st /\
  (forall data,
     errorMessage User
       (runProfile User st (fetchUserData User username (Resolved data)))
     = errorMessage User st) /\
  (forall name res, username = Some name -> name <> "" ->
     loading User (runProfile User st (fetchUserData User username res)) = false).
Proof.
  unfold handleResetPassword, handleUpdateBiography, fetchUserData,
    validatePasswords.
  destruct username as [name|]; [|repeat split; intros; discriminate].
  destruct (GamePageHook.truthy (Some name)) eqn:Ht.
  - repeat split.
    + destruct (bool_decide (newPassword User st = "")
                || bool_decide (confirmNewPassword User st = ""));
        [reflexivity|].
      destruct (negb (bool_decide
                        (newPassword User st = confirmNewPassword User st)));
        reflexivity.
    + intros n res _ _. destruct res; reflexivity.
  - repeat split. intros n res [= <-] Hne.
    apply truthy_name in Hne. congruence.
Qed.

(** X25. Confirming the deletion navigates home even when the deletion
    failed. The pending action asks for the deletion first; when it
    succeeds the page navigates to [/] twice, when it fails the error is
    set and the page still navigates to [/] once; either way the
    confirmation is hidden in the end. *)
Theorem runPendingAction_always_navigates (st : ProfileState User)
    (username : string) (res : Outcome unit) :
  runPendingAction User username res !! 0 = Some (CallDeleteUser username) /\
  In (NavigateTo "/") (runPendingAction User username res) /\
  showConfirmation User (runProfile User st (runPendingAction User username res))
  = false /\
  (forall u, res = Resolved u ->
     navigations User (runPendingAction User username res)
     = [NavigateTo "/"; NavigateTo "/"]) /\
  (forall err, res = Rejected err ->
     navigations User (runPendingAction User username res) = [NavigateTo "/"] /\
     errorMessage User
       (runProfile User st (runPendingAction User username res))
     = Some "Error deleting user").
Proof.
  destruct res as [u|err]; simpl.
  - repeat split; try discriminate; auto.
  - repeat split; try discriminate; auto 6.
Qed.

End Hook.

Lemma handleResetPassword_guard_witness :
  handleResetPassword string (sampleProfile "" "secret") (Some "alice")
    (Resolved ())
  = [SetErrorMessage (Some "Password fields cannot be empty")].
Proof.
  apply (proj1 (proj2 (proj2 (handleResetPassword_guard
           (sampleProfile "" "secret") (Some "alice") (Resolved ())))) "alice");
    [reflexivity | discriminate | left; reflexivity].
Defined.

Lemma messages_go_stale_witness :
  loading string
    (runProfile string (sampleProfile "" "")
       (fetchUserData string (Some "alice") (Rejected "404")))
  = false.
Proof.
  apply (proj2 (proj2 (proj2 (proj2 (messages_go_stale
           (sampleProfile "" "") (Some "alice") "500")))) "alice" (Rejected "404"));
    [reflexivity | discriminate].
Defined.

Lemma runPendingAction_always_navigates_witness :
  navigations string (runPendingAction string "alice" (Rejected "500"))
  = [NavigateTo "/"].
Proof.
  apply (proj1 (proj2 (proj2 (proj2 (proj2 (runPendingAction_always_navigates
           (sampleProfile "" "") "alice" (Rejected "500"))))) "500" eq_refl)).
Defined.

Example handleResetPassword_sample :
  handleResetPassword string (sampleProfile "secret" "secret") (Some "alice")
    (Resolved ())
  = [CallResetPassword "alice" "secret";
     SetSuccessMessage (Some "Password reset successfully");
     SetNewPassword ""; SetConfirmNewPassword ""; SetErrorMessage None].
Proof. reflexivity. Qed.

End ProfileSettingsFacts.
